(** * Survey configuration and submission validation (app/validation.py)

    A shallow embedding of [ConfigurationValidator] and
    [SubmissionValidator], the two Cerberus validators of the survey
    backend, together with the part of Cerberus 1.3 that interprets the
    schemas they are created with.

    Python values are the JSON-like documents the validators receive.
    A [dict] is an association list in insertion order, because the
    configuration type checks compare [list(value.keys())] with a list
    literal.  A [str] is a Rocq [string]; one character of the model stands
    for one character of the Python string, so [String.length] is [len].
    Exceptions are explicit: every function that can raise in Python
    returns in [res].  Two things the validators call are outside the
    sources and stay parameters: [app.utils.isregex] and the matching of
    Python's [re] module. *)

From Stdlib Require Import List String Ascii ZArith Bool Lia Arith.
From Stdlib Require Import DecimalString DecimalNat Permutation.
Import ListNotations.

Local Open Scope string_scope.
Local Open Scope list_scope.

(** ** Python values *)

#[warnings="-register-all"]
Inductive value : Type :=
| VNone
| VBool (b : bool)
| VInt (z : Z)
| VStr (s : string)
| VList (l : list value)
| VDict (d : list (string * value)).

Definition dict := list (string * value).

(** ** Exceptions *)

Inductive pyexc : Type :=
| KeyError
| TypeError
| AttributeError
| ReError
| DocumentError
| SchemaError.

Inductive res (A : Type) : Type :=
| Ok (a : A)
| Raise (e : pyexc).

Arguments Ok {A} a.
Arguments Raise {A} e.

Definition bind {A B : Type} (m : res A) (f : A -> res B) : res B :=
  match m with
  | Ok a => f a
  | Raise e => Raise e
  end.

Notation "x <- m ;; k" := (bind m (fun x => k))
  (at level 61, m at next level, right associativity).

(** [a and b] on booleans: [b] is evaluated only when [a] is true. *)
Definition and_then (a : res bool) (b : res bool) : res bool :=
  x <- a ;; if x then b else Ok false.

Infix "&&&" := and_then (at level 40, left associativity).

(** ** Dictionaries *)

Module Dict.

Definition keys (d : dict) : list string := map fst d.

Definition values (d : dict) : list value := map snd d.

Fixpoint get (k : string) (d : dict) : option value :=
  match d with
  | [] => None
  | (k', v) :: d' => if String.eqb k' k then Some v else get k d'
  end.

(** [k in d.keys()] *)
Definition contains (k : string) (d : dict) : bool :=
  existsb (String.eqb k) (keys d).

(** [d[k]] *)
Definition getitem (k : string) (d : dict) : res value :=
  match get k d with
  | Some v => Ok v
  | None => Raise KeyError
  end.

(** [d[k] = v]: an existing key keeps its position. *)
Fixpoint set (k : string) (v : value) (d : dict) : dict :=
  match d with
  | [] => [(k, v)]
  | (k', v') :: d' =>
      if String.eqb k' k then (k, v) :: d' else (k', v') :: set k v d'
  end.

End Dict.

(** [str(n)] for a non-negative integer. *)
Definition str_of_nat (n : nat) : string :=
  NilEmpty.string_of_uint (Nat.to_uint n).

(** [str(z)], as an f-string prints an integer. *)
Definition str_of_Z (z : Z) : string :=
  NilZero.string_of_int (Z.to_int z).

(** ** Python operators on values *)

(** [type(v) == str] *)
Definition is_str (v : value) : bool :=
  match v with VStr _ => true | _ => false end.

(** [type(v) == bool] *)
Definition is_bool (v : value) : bool :=
  match v with VBool _ => true | _ => false end.

(** [type(v) == list] *)
Definition is_list (v : value) : bool :=
  match v with VList _ => true | _ => false end.

(** [type(v) is dict] *)
Definition is_dict (v : value) : bool :=
  match v with VDict _ => true | _ => false end.

(** The integer a value stands for in arithmetic: [bool] is a subclass of
    [int], so [True] is 1 and [False] is 0. *)
Definition int_of (v : value) : option Z :=
  match v with
  | VInt z => Some z
  | VBool b => Some (if b then 1%Z else 0%Z)
  | _ => None
  end.

(** [len(v)] *)
Definition py_len (v : value) : res nat :=
  match v with
  | VStr s => Ok (String.length s)
  | VList l => Ok (List.length l)
  | VDict d => Ok (List.length d)
  | _ => Raise TypeError
  end.

(** [v == 'literal'] *)
Definition eq_str (v : value) (s : string) : bool :=
  match v with VStr s' => String.eqb s' s | _ => false end.

(** [bool(v)] *)
Definition truthy (v : value) : bool :=
  match v with
  | VNone => false
  | VBool b => b
  | VInt z => negb (Z.eqb z 0)
  | VStr s => negb (String.eqb s "")
  | VList l => match l with [] => false | _ => true end
  | VDict d => match d with [] => false | _ => true end
  end.

(** [v[k]] with a string [k]: only a dict can be indexed by a string. *)
Definition getitem (v : value) (k : string) : res value :=
  match v with
  | VDict d => Dict.getitem k d
  | _ => Raise TypeError
  end.

(** [list(v.keys()) == ks] *)
Definition keys_are (v : value) (ks : list string) : res bool :=
  match v with
  | VDict d =>
      Ok (if list_eq_dec string_dec (Dict.keys d) ks then true else false)
  | _ => Raise AttributeError
  end.

(** [a == b]: [True == 1], lists compare element by element, dicts compare
    as mappings, whatever the order of their keys. *)
Fixpoint py_eq (a b : value) : bool :=
  match a, b with
  | VNone, VNone => true
  | VStr s, VStr t => String.eqb s t
  | VList l, VList m =>
      (fix go (l m : list value) : bool :=
         match l, m with
         | [], [] => true
         | x :: l', y :: m' => py_eq x y && go l' m'
         | _, _ => false
         end) l m
  | VDict d, VDict e =>
      Nat.eqb (List.length d) (List.length e)
      && (fix go (d : dict) : bool :=
            match d with
            | [] => true
            | (k, v) :: d' =>
                match Dict.get k e with
                | Some w => py_eq v w
                | None => false
                end && go d'
            end) d
  | _, _ =>
      match int_of a, int_of b with
      | Some x, Some y => Z.eqb x y
      | _, _ => false
      end
  end.

(** [a < b]: defined between integers, between strings and between lists;
    any other pair raises [TypeError]. *)
Fixpoint py_lt (a b : value) : res bool :=
  match a, b with
  | VStr s, VStr t => Ok (String.ltb s t)
  | VList l, VList m =>
      (fix go (l m : list value) : res bool :=
         match l, m with
         | [], [] => Ok false
         | [], _ :: _ => Ok true
         | _ :: _, [] => Ok false
         | x :: l', y :: m' => if py_eq x y then go l' m' else py_lt x y
         end) l m
  | _, _ =>
      match int_of a, int_of b with
      | Some x, Some y => Ok (Z.ltb x y)
      | _, _ => Raise TypeError
      end
  end.

(** [x in l] for a list [l]. *)
Definition py_in (x : value) (l : list value) : bool :=
  existsb (py_eq x) l.

(** What an f-string prints for the bound of a rule of the submission
    validator.  Such a rule prints its bound only after it has compared it
    with an integer, and the comparison raises on anything but an integer
    or a boolean, so those are the only values that get printed.  [str] of
    a string and of [None] are the two other cases given; [str] of a list
    or of a dict is not modelled, and no rule below prints one. *)
Definition py_format (v : value) : string :=
  match v with
  | VInt z => str_of_Z z
  | VBool true => "True"
  | VBool false => "False"
  | VStr s => s
  | _ => "None"
  end.

(** ** Cerberus

    The part of Cerberus 1.3 the two validators rely on: [Validator.validate]
    with [require_all=True] and unknown keys refused, the queue of rules of
    one field ([nullable] and [type] first, then the rules in the order of
    the definitions), the rules [type], [minlength], [maxlength], [min],
    [max], [allowed], [schema] and [regex], and the lookup of a subclass's
    [types_mapping], [_validate_type_<name>] and [_validate_<rule>]
    methods.  A schema is the Python dict itself.  The errors are kept as
    a list, one entry per leaf of Cerberus's error tree with the path of
    the field it belongs to, in the order in which the rules record them;
    Cerberus keeps its own list sorted, and [validate] only asks whether
    there is an error.

    Two steps of Cerberus are left out.  [Validator.__init__] checks the
    schema it is given and raises [SchemaError] on one it refuses; the
    model reads a schema as it is and raises [SchemaError] only when it
    meets a rule or a type name it cannot run.  [Validator.validate]
    normalises the document before it validates it; neither schema of the
    source holds a normalisation rule ([rename], [default], [coerce]), so
    the pass leaves the document as it is, but it raises [TypeError] on a
    configuration whose [fields] is a dict with a key [type], where it
    reads the definitions of the items as a schema. *)

Inductive pathelem : Type :=
| PKey (k : string)
| PIdx (i : nat).

Definition path := list pathelem.

Inductive message : Type :=
| NotNullable
| BadType
| RequiredField
| UnknownField
| MinLength
| MaxLength
| MinValue
| MaxValue
| UnallowedValue
| RegexMismatch
| Custom (text : string).

Definition error : Type := path * message.

(** What a subclass of [Validator] declares. *)
Record validator_class : Type := {
  (** [types_mapping]: a type name and its [isinstance] test *)
  types_mapping : string -> option (value -> bool);
  (** [_validate_type_<name>(self, value)] *)
  type_methods : string -> option (value -> res bool);
  (** [_validate_<rule>(self, constraint, field, value)]: the messages
      passed to [self._error] *)
  rule_methods : string -> option (value -> value -> res (list string))
}.

Section Traverse.

Context {A B : Type} (f : A -> res (list B)).

(** Run [f] on every element, left to right, and collect the errors. *)
Fixpoint collect (l : list A) : res (list B) :=
  match l with
  | [] => Ok []
  | x :: l' => e <- f x ;; es <- collect l' ;; Ok (e ++ es)
  end.

Fixpoint collect_from (i : nat) (g : nat -> A -> res (list B))
  (l : list A) : res (list B) :=
  match l with
  | [] => Ok []
  | x :: l' => e <- g i x ;; es <- collect_from (S i) g l' ;; Ok (e ++ es)
  end.

End Traverse.

Section Lookup.

Context {A : Type} (f : value -> A).

(** [f] applied to the entry of key [k], when there is one. *)
Fixpoint get_with (k : string) (d : dict) : option A :=
  match d with
  | [] => None
  | (k', v) :: d' => if String.eqb k' k then Some (f v) else get_with k d'
  end.

End Lookup.

(** [pattern.endswith('$')] *)
Fixpoint ends_with_dollar (s : string) : bool :=
  match s with
  | EmptyString => false
  | String c EmptyString => Ascii.eqb c "$"%char
  | String _ s' => ends_with_dollar s'
  end.

(** [isinstance(value, Iterable)] *)
Definition is_iterable (v : value) : bool :=
  match v with
  | VStr _ | VList _ | VDict _ => true
  | _ => false
  end.

Section Cerberus.

(** [re.compile(pattern).match(value) is not None]; [re.error] when the
    pattern does not compile. *)
Variable re_match : string -> string -> res bool.

Variable cls : validator_class.

(** One name of a [type] constraint: [types_mapping] first, a
    [_validate_type_<name>] method otherwise. *)
Definition type_matches (name : string) (v : value) : res bool :=
  match types_mapping cls name with
  | Some test => Ok (test v)
  | None =>
      match type_methods cls name with
      | Some handler => handler v
      | None => Raise SchemaError
      end
  end.

Fixpoint any_type_matches (names : list value) (v : value) : res bool :=
  match names with
  | [] => Ok false
  | VStr name :: names' =>
      m <- type_matches name v ;;
      if m then Ok true else any_type_matches names' v
  | _ :: _ => Raise SchemaError
  end.

(** [_validate_type]: the constraint is one name or a list of names, and
    the value has to match one of them. *)
Definition validate_type (data_type v : value) : res bool :=
  match data_type with
  | VStr name => any_type_matches [VStr name] v
  | VList names => any_type_matches names v
  | _ => Raise SchemaError
  end.

Definition validate_minlength (min_length v : value) : res (list message) :=
  if is_iterable v then
    n <- py_len v ;;
    lt <- py_lt (VInt (Z.of_nat n)) min_length ;;
    Ok (if lt then [MinLength] else [])
  else Ok [].

Definition validate_maxlength (max_length v : value) : res (list message) :=
  if is_iterable v then
    n <- py_len v ;;
    gt <- py_lt max_length (VInt (Z.of_nat n)) ;;
    Ok (if gt then [MaxLength] else [])
  else Ok [].

(** [min] and [max] catch the [TypeError] of the comparison. *)
Definition validate_min (min_value v : value) : res (list message) :=
  match py_lt v min_value with
  | Ok true => Ok [MinValue]
  | _ => Ok []
  end.

Definition validate_max (max_value v : value) : res (list message) :=
  match py_lt max_value v with
  | Ok true => Ok [MaxValue]
  | _ => Ok []
  end.

Definition validate_allowed (allowed_values v : value)
  : res (list message) :=
  match allowed_values with
  | VList allowed =>
      match v with
      | VList l =>
          Ok (if forallb (fun x => py_in x allowed) l
              then [] else [UnallowedValue])
      | VDict d =>
          Ok (if forallb (fun k => py_in (VStr k) allowed) (Dict.keys d)
              then [] else [UnallowedValue])
      | _ => Ok (if py_in v allowed then [] else [UnallowedValue])
      end
  | _ => Raise SchemaError
  end.

Definition validate_regex (pattern v : value) : res (list message) :=
  match pattern, v with
  | VStr p, VStr s =>
      m <- re_match (if ends_with_dollar p then p else (p ++ "$")%string) s ;;
      Ok (if m then [] else [RegexMismatch])
  | VStr _, _ => Ok []
  | _, _ => Raise SchemaError
  end.

(** A rule other than [nullable], [type] and [schema]: one of the rules
    of Cerberus that [SCHEMA] or a generated schema can hold, or a rule
    method of the subclass.  Cerberus refuses a schema with any other rule
    when the validator is created. *)
Definition validate_rule (rule : string) (constraint v : value)
  : res (list message) :=
  if String.eqb rule "minlength" then validate_minlength constraint v
  else if String.eqb rule "maxlength" then validate_maxlength constraint v
  else if String.eqb rule "min" then validate_min constraint v
  else if String.eqb rule "max" then validate_max constraint v
  else if String.eqb rule "allowed" then validate_allowed constraint v
  else if String.eqb rule "regex" then validate_regex constraint v
  else
    match rule_methods cls rule with
    | Some method => msgs <- method constraint v ;; Ok (map Custom msgs)
    | None => Raise SchemaError
    end.

Definition at_path (p : path) (msgs : list message) : list error :=
  map (fun m => (p, m)) msgs.

(** [__validate_required_fields]: the validators are created with
    [require_all=True] and no definitions say [required], so every key of
    the schema that the document lacks is an error. *)
Definition missing_fields (p : path) (schema doc : dict) : list error :=
  flat_map
    (fun entry =>
       if Dict.contains (fst entry) doc then []
       else [(p ++ [PKey (fst entry)], RequiredField)])
    schema.

(** A document against a schema, given the check of one field against
    its definitions: every key of the document is checked against the
    schema's definitions of it or refused as unknown, and then the
    required keys it lacks are reported. *)
Definition validate_mapping
  (field_check : string -> option (path -> value -> res (list error)))
  (schema : dict) (p : path) (doc : dict) : res (list error) :=
  errs <- collect
            (fun item =>
               match field_check (fst item) with
               | Some check => check (p ++ [PKey (fst item)]) (snd item)
               | None => Ok [(p ++ [PKey (fst item)], UnknownField)]
               end) doc ;;
  Ok (errs ++ missing_fields p schema doc).

(** [__validate_definitions]: the rules of one field.  [None] is an
    error unless the field is nullable and takes [type] and [allowed] out
    of the queue; a value that fails [type] drops the rest of the queue.
    The [schema] rule checks the items of a list against the constraint
    as definitions, and a mapping against the constraint as a schema. *)
Fixpoint validate_definitions (definitions : value) (p : path) (v : value)
  {struct definitions} : res (list error) :=
  match definitions with
  | VDict rules =>
      let rest (skip : list string) : res (list error) :=
        collect
          (fun entry =>
             let rule := fst entry in
             if existsb (String.eqb rule) skip then Ok []
             else if String.eqb rule "schema" then
               match v with
               | VList items =>
                   collect_from 0
                     (fun i item =>
                        validate_definitions (snd entry) (p ++ [PIdx i]) item)
                     items
               | VDict doc =>
                   match snd entry with
                   | VDict schema =>
                       validate_mapping
                         (fun k => get_with validate_definitions k schema)
                         schema p doc
                   | _ => Raise SchemaError
                   end
               | _ => Ok []
               end
             else
               msgs <- validate_rule rule (snd entry) v ;;
               Ok (at_path p msgs))
          rules in
      match v with
      | VNone =>
          errs <- rest ["type"; "allowed"] ;;
          Ok ((p, NotNullable) :: errs)
      | _ =>
          match Dict.get "type" rules with
          | Some data_type =>
              m <- validate_type data_type v ;;
              if m then rest ["type"] else Ok [(p, BadType)]
          | None => rest []
          end
      end
  | _ => Raise SchemaError
  end.

(** [Validator.validate(document)] without the normalisation pass: the
    errors of the document, and [True] when there is none. *)
Definition errors (schema : dict) (document : value) : res (list error) :=
  match document with
  | VDict doc =>
      validate_mapping (fun k => get_with validate_definitions k schema)
        schema [] doc
  | _ => Raise DocumentError
  end.

Definition validate (schema : dict) (document : value) : res bool :=
  errs <- errors schema document ;;
  Ok (match errs with [] => true | _ => false end).

End Cerberus.

(** ** ConfigurationValidator *)

Module ConfigurationValidator.

Definition TITLE_MAX_LENGTH : nat := 100.
Definition DESCRIPTION_MAX_LENGTH : nat := 1000.
Definition REGEX_MAX_LENGTH : nat := 100.
Definition HINT_MAX_LENGTH : nat := 100.

Definition SCHEMA : dict :=
  [ ("admin_name", VDict [("type", VStr "string"); ("minlength", VInt 1);
                          ("maxlength", VInt 20)]);
    ("survey_name", VDict [("type", VStr "string"); ("minlength", VInt 1);
                           ("maxlength", VInt 20)]);
    ("title", VDict [("type", VStr "string");
                     ("maxlength", VInt (Z.of_nat TITLE_MAX_LENGTH))]);
    ("description", VDict [("type", VStr "string");
                           ("maxlength",
                            VInt (Z.of_nat DESCRIPTION_MAX_LENGTH))]);
    ("start", VDict [("type", VStr "integer"); ("min", VInt 0)]);
    ("end", VDict [("type", VStr "integer"); ("min", VInt 0)]);
    ("mode", VDict [("type", VStr "integer");
                    ("allowed", VList [VInt 0; VInt 1; VInt 2])]);
    ("fields", VDict [("type", VStr "list");
                      ("schema",
                       VDict [("type", VList [VStr "email"; VStr "option";
                                              VStr "radio"])])]) ].

(** [type(value[k]) == str and len(value[k]) <= bound] *)
Definition str_within (value : value) (k : string) (bound : nat)
  : res bool :=
  (x <- getitem value k ;; Ok (is_str x))
  &&& (x <- getitem value k ;; n <- py_len x ;; Ok (Nat.leb n bound)).

Definition _validate_type_option (value : value) : res bool :=
  Ok (is_dict value)
  &&& keys_are value ["type"; "title"; "description"; "mandatory"]
  &&& (t <- getitem value "type" ;; Ok (eq_str t "option"))
  &&& str_within value "title" TITLE_MAX_LENGTH
  &&& str_within value "description" DESCRIPTION_MAX_LENGTH
  &&& (m <- getitem value "mandatory" ;; Ok (is_bool m)).

(** [all([self._validate_type_option(field) for field in fields])]: the
    list is built in full before [all] looks at it. *)
Fixpoint all_options (fields : list value) : res bool :=
  match fields with
  | [] => Ok true
  | field :: fields' =>
      b <- _validate_type_option field ;;
      bs <- all_options fields' ;;
      Ok (b && bs)
  end.

Definition _validate_type_radio (value : value) : res bool :=
  Ok (is_dict value)
  &&& keys_are value ["type"; "title"; "description"; "fields"]
  &&& (t <- getitem value "type" ;; Ok (eq_str t "radio"))
  &&& str_within value "title" TITLE_MAX_LENGTH
  &&& str_within value "description" DESCRIPTION_MAX_LENGTH
  &&& (f <- getitem value "fields" ;; Ok (is_list f))
  &&& (f <- getitem value "fields" ;;
       match f with
       | VList fields => all_options fields
       | _ => Raise TypeError
       end).

(** The rule's docstring, [{'type': 'string'}], is its constraint's
    schema: Cerberus refuses a schema whose [equals] is not a string when
    the validator is created, so the f-string prints a string. *)
Definition _validate_equals (equals value : value) : res (list string) :=
  match equals with
  | VStr s =>
      Ok (if py_eq value equals then []
          else [("must be equal to " ++ s)%string])
  | _ => Raise SchemaError
  end.

Section WithRegex.

(** [app.utils.isregex], which is not part of the sources at hand: it
    says whether its argument compiles as a regular expression. *)
Variable isregex : value -> bool.

Definition _validate_type_email (value : value) : res bool :=
  Ok (is_dict value)
  &&& keys_are value ["type"; "title"; "description"; "regex"; "hint"]
  &&& (t <- getitem value "type" ;; Ok (eq_str t "email"))
  &&& str_within value "title" TITLE_MAX_LENGTH
  &&& str_within value "description" DESCRIPTION_MAX_LENGTH
  &&& str_within value "regex" REGEX_MAX_LENGTH
  &&& (r <- getitem value "regex" ;; Ok (isregex r))
  &&& str_within value "hint" HINT_MAX_LENGTH.

(** The class: the types of [Validator.types_mapping] that [SCHEMA]
    names, the three type methods and the [equals] rule. *)
Definition class : validator_class := {|
  types_mapping name :=
    if String.eqb name "string" then Some is_str
    else if String.eqb name "integer" then
      Some (fun v => match int_of v with Some _ => true | None => false end)
    else if String.eqb name "list" then Some is_list
    else if String.eqb name "dict" then Some is_dict
    else if String.eqb name "boolean" then Some is_bool
    else None;
  type_methods name :=
    if String.eqb name "email" then Some _validate_type_email
    else if String.eqb name "option" then Some _validate_type_option
    else if String.eqb name "radio" then Some _validate_type_radio
    else None;
  rule_methods name :=
    if String.eqb name "equals" then Some _validate_equals else None
|}.

Variable re_match : string -> string -> res bool.

(** [ConfigurationValidator.create().validate(configuration)], for a
    configuration whose [fields] is no dict with a key [type]. *)
Definition validate_configuration (configuration : value) : res bool :=
  validate re_match class SCHEMA configuration.

Definition configuration_errors (configuration : value)
  : res (list error) :=
  errors re_match class SCHEMA configuration.

End WithRegex.

End ConfigurationValidator.

(** ** SubmissionValidator *)

Module SubmissionValidator.

Definition rules : list string :=
  ["min_chars"; "max_chars"; "min_select"; "max_select"; "mandatory";
   "regex"].

(** [for rule, value in field.items(): if rule in rules: fs[rule] = value] *)
Fixpoint copy_rules (items : dict) (fs : dict) : dict :=
  match items with
  | [] => fs
  | (rule, value) :: items' =>
      copy_rules items'
        (if existsb (String.eqb rule) rules then Dict.set rule value fs
         else fs)
  end.

Section Enumerate.

Variable f : value -> res value.

(** [{str(i+1): f(x) for i, x in enumerate(l)}], from index [i] on,
    the entries made so far being [acc]. *)
Fixpoint enumerate_from (i : nat) (l : list value) (acc : dict)
  : res dict :=
  match l with
  | [] => Ok acc
  | x :: l' =>
      y <- f x ;;
      enumerate_from (S i) l' (Dict.set (str_of_nat (i + 1)) y acc)
  end.

(** The comprehension over any value: a list gives its elements; an
    empty dict or string gives nothing; the keys of a dict and the
    characters of a string are strings, which [f] cannot index; the
    other values are not iterable. *)
Definition enumerate (v : value) : res dict :=
  match v with
  | VList l => enumerate_from 0 l []
  | VDict [] => Ok []
  | VStr EmptyString => Ok []
  | _ => Raise TypeError
  end.

End Enumerate.

Fixpoint _generate_field_schema (field : value) : res value :=
  match field with
  | VDict items =>
      t <- Dict.getitem "type" items ;;
      fs <- match get_with (enumerate _generate_field_schema) "fields" items
            with
            | Some sub =>
                schema <- sub ;;
                Ok (Dict.set "schema" (VDict schema) [("type", t)])
            | None => Ok [("type", t)]
            end ;;
      Ok (VDict (copy_rules items fs))
  | _ => Raise TypeError
  end.

Definition _generate_schema (configuration : value) : res value :=
  fields <- getitem configuration "fields" ;;
  schema <- enumerate _generate_field_schema fields ;;
  Ok (VDict schema).

(** [sum(value.values())] *)
Fixpoint sum_values (vs : list value) (acc : Z) : res Z :=
  match vs with
  | [] => Ok acc
  | v :: vs' =>
      match int_of v with
      | Some z => sum_values vs' (acc + z)%Z
      | None => Raise TypeError
      end
  end.

Definition _count_selections (value : value) : res Z :=
  match value with
  | VDict d => sum_values (Dict.values d) 0%Z
  | _ => Raise AttributeError
  end.

Definition _validate_type_selection (value : value) : res bool :=
  match value with
  | VDict d => Ok (forallb is_bool (Dict.values d))
  | _ => Ok false
  end.

Definition _validate_type_radio (value : value) : res bool :=
  s <- _validate_type_selection value ;;
  if negb s then Ok false
  else
    count <- _count_selections value ;;
    if negb (Z.eqb count 1) then Ok false else Ok true.

Definition _validate_min_chars (min_chars value : value)
  : res (list string) :=
  n <- py_len value ;;
  lt <- py_lt (VInt (Z.of_nat n)) min_chars ;;
  Ok (if lt
      then [("must be at least " ++ py_format min_chars
             ++ " characters long")%string]
      else []).

Definition _validate_max_chars (max_chars value : value)
  : res (list string) :=
  n <- py_len value ;;
  gt <- py_lt max_chars (VInt (Z.of_nat n)) ;;
  Ok (if gt
      then [("must be at most " ++ py_format max_chars
             ++ " characters long")%string]
      else []).

Definition _validate_min_select (min_select value : value)
  : res (list string) :=
  count <- _count_selections value ;;
  lt <- py_lt (VInt count) min_select ;;
  Ok (if lt
      then [("must select at least " ++ py_format min_select
             ++ " options")%string]
      else []).

Definition _validate_max_select (max_select value : value)
  : res (list string) :=
  count <- _count_selections value ;;
  gt <- py_lt max_select (VInt count) ;;
  Ok (if gt
      then [("must select at most " ++ py_format max_select
             ++ " options")%string]
      else []).

Definition _validate_mandatory (mandatory value : value)
  : res (list string) :=
  if truthy mandatory then
    if (is_bool value && negb (truthy value))
       || (is_str value && eq_str value "")
    then Ok ["this field is mandatory"]
    else Ok []
  else Ok [].

(** The class: [types_mapping] is replaced by the three entries of the
    source, the two type methods and the five rules are added. *)
Definition class : validator_class := {|
  types_mapping name :=
    if String.eqb name "email" then Some is_str
    else if String.eqb name "option" then Some is_bool
    else if String.eqb name "text" then Some is_str
    else None;
  type_methods name :=
    if String.eqb name "selection" then Some _validate_type_selection
    else if String.eqb name "radio" then Some _validate_type_radio
    else None;
  rule_methods name :=
    if String.eqb name "min_chars" then Some _validate_min_chars
    else if String.eqb name "max_chars" then Some _validate_max_chars
    else if String.eqb name "min_select" then Some _validate_min_select
    else if String.eqb name "max_select" then Some _validate_max_select
    else if String.eqb name "mandatory" then Some _validate_mandatory
    else None
|}.

Section WithRegex.

Variable re_match : string -> string -> res bool.

(** The errors of one submitted value against the compiled entry of
    its field. *)
Definition field_errors (entry : value) (p : path) (v : value)
  : res (list error) :=
  validate_definitions re_match class entry p v.

(** [SubmissionValidator.create(configuration).validate(submission)], for
    a configuration whose generated schema [Validator.__init__] takes: the
    bounds integers, [mandatory] a boolean, [regex] a string and [type]
    one of the five types of the class.  On another one the source raises
    [SchemaError] in [create]. *)
Definition submission_errors (configuration submission : value)
  : res (list error) :=
  schema <- _generate_schema configuration ;;
  match schema with
  | VDict s => errors re_match class s submission
  | _ => Raise SchemaError
  end.

Definition validate_submission (configuration submission : value)
  : res bool :=
  errs <- submission_errors configuration submission ;;
  Ok (match errs with [] => true | _ => false end).

End WithRegex.

End SubmissionValidator.

(** ** Documents

    The configuration fields of each kind, with their keys in the order the
    type checks ask for. *)

Definition option_field (title description : string) (mandatory : bool)
  : value :=
  VDict [("type", VStr "option"); ("title", VStr title);
         ("description", VStr description); ("mandatory", VBool mandatory)].

Definition radio_field (title description : string) (fields : list value)
  : value :=
  VDict [("type", VStr "radio"); ("title", VStr title);
         ("description", VStr description); ("fields", VList fields)].

Definition email_field (title description regex hint : string) : value :=
  VDict [("type", VStr "email"); ("title", VStr title);
         ("description", VStr description); ("regex", VStr regex);
         ("hint", VStr hint)].

(** ** What the configuration schema asks of each key

    [entry_ok isregex k v]: the value [v] of the key [k] of a configuration
    passes the rules [SCHEMA] gives for [k]. *)

(** One of the three type checks accepts the field. *)
Definition top_level_accepts (isregex : value -> bool) (field : value)
  : Prop :=
  ConfigurationValidator._validate_type_email isregex field = Ok true
  \/ ConfigurationValidator._validate_type_option field = Ok true
  \/ ConfigurationValidator._validate_type_radio field = Ok true.

Definition str_between (lo hi : nat) (v : value) : Prop :=
  exists s, v = VStr s /\ lo <= String.length s <= hi.

Definition non_negative_integer (v : value) : Prop :=
  exists z, int_of v = Some z /\ (0 <= z)%Z.

Definition entry_ok (isregex : value -> bool) (k : string) (v : value)
  : Prop :=
  if String.eqb k "admin_name" then str_between 1 20 v
  else if String.eqb k "survey_name" then str_between 1 20 v
  else if String.eqb k "title" then
    str_between 0 ConfigurationValidator.TITLE_MAX_LENGTH v
  else if String.eqb k "description" then
    str_between 0 ConfigurationValidator.DESCRIPTION_MAX_LENGTH v
  else if String.eqb k "start" then non_negative_integer v
  else if String.eqb k "end" then non_negative_integer v
  else if String.eqb k "mode" then
    exists z, int_of v = Some z /\ (z = 0 \/ z = 1 \/ z = 2)%Z
  else if String.eqb k "fields" then
    exists fields, v = VList fields
                   /\ Forall (top_level_accepts isregex) fields
  else False.

(** Every entry of the configuration passes the rules of its key, and no
    key of the schema is missing. *)
Definition entries_ok (isregex : value -> bool) (d : dict) : Prop :=
  (forall k v, In (k, v) d -> entry_ok isregex k v)
  /\ (forall k, In k (Dict.keys ConfigurationValidator.SCHEMA) ->
                In k (Dict.keys d)).

(** The rules of one key of a configuration, run on its value. *)
Definition check_entry (isregex : value -> bool)
  (re_match : string -> string -> res bool)
  : value -> path -> value -> res (list error) :=
  validate_definitions re_match (ConfigurationValidator.class isregex).

(** The definitions [SCHEMA] gives for the items of [fields]. *)
Definition item_definitions : value :=
  VDict [("type", VList [VStr "email"; VStr "option"; VStr "radio"])].

(** ** What a compiled schema has to look like

    [compiled_from field entry]: the entry of the submission schema carries
    the field's [type] and those of the six rules the field has, nothing
    else but the nested [schema] of a field with subfields; that nested
    schema mirrors the subfields.  [mirrors_from i fields entries]: there is
    one entry per field, in the order of the fields, the field at position
    [j] (counted from [i]) under the key [str(j+1)]. *)

(** The validation rules of the specification, by name. *)
Definition rule_names : list string :=
  ["min_chars"; "max_chars"; "min_select"; "max_select"; "mandatory";
   "regex"].

Definition carries (items entry : dict) : Prop :=
  (exists t, Dict.get "type" items = Some t /\ Dict.get "type" entry = Some t)
  /\ (forall k, In k rule_names -> Dict.get k entry = Dict.get k items)
  /\ (forall k, In k (Dict.keys entry) ->
                k = "type" \/ k = "schema" \/ In k rule_names).

Inductive compiled_from : value -> value -> Prop :=
| compiled_leaf (items entry : dict) :
    Dict.get "fields" items = None ->
    carries items entry ->
    Dict.get "schema" entry = None ->
    compiled_from (VDict items) (VDict entry)
| compiled_group (items entry : dict) (subfields : list value)
    (subentries : dict) :
    Dict.get "fields" items = Some (VList subfields) ->
    carries items entry ->
    Dict.get "schema" entry = Some (VDict subentries) ->
    mirrors_from 0 subfields subentries ->
    compiled_from (VDict items) (VDict entry)
with mirrors_from : nat -> list value -> dict -> Prop :=
| mirrors_nil (i : nat) : mirrors_from i [] []
| mirrors_cons (i : nat) (field entry : value) (fields : list value)
    (entries : dict) :
    compiled_from field entry ->
    mirrors_from (S i) fields entries ->
    mirrors_from i (field :: fields) ((str_of_nat (i + 1), entry) :: entries).

(** ** The kinds the configuration validator checks *)

Inductive kind : Type :=
| Email
| Option
| Radio.

Definition required_keys (k : kind) : list string :=
  match k with
  | Email => ["type"; "title"; "description"; "regex"; "hint"]
  | Option => ["type"; "title"; "description"; "mandatory"]
  | Radio => ["type"; "title"; "description"; "fields"]
  end.

Definition structural_check (isregex : value -> bool) (k : kind)
  : value -> res bool :=
  match k with
  | Email => ConfigurationValidator._validate_type_email isregex
  | Option => ConfigurationValidator._validate_type_option
  | Radio => ConfigurationValidator._validate_type_radio
  end.

Definition kind_name (k : kind) : string :=
  match k with
  | Email => "email"
  | Option => "option"
  | Radio => "radio"
  end.

(** The two kinds the submission validator knows besides: their
    configuration fields, keys in the order of the unused schemas of the
    source. *)
Definition text_field (title description : string) (min_chars max_chars : Z)
  : value :=
  VDict [("type", VStr "text"); ("title", VStr title);
         ("description", VStr description); ("min_chars", VInt min_chars);
         ("max_chars", VInt max_chars)].

Definition selection_field (title description : string)
  (min_select max_select : Z) (fields : list value) : value :=
  VDict [("type", VStr "selection"); ("title", VStr title);
         ("description", VStr description); ("min_select", VInt min_select);
         ("max_select", VInt max_select); ("fields", VList fields)].

(** A configuration document with its keys in the order of [SCHEMA]. *)
Definition configuration (admin_name survey_name title description : string)
  (start end_ mode : Z) (fields : list value) : value :=
  VDict [("admin_name", VStr admin_name); ("survey_name", VStr survey_name);
         ("title", VStr title); ("description", VStr description);
         ("start", VInt start); ("end", VInt end_); ("mode", VInt mode);
         ("fields", VList fields)].

(** The number of entries of a selection that are [True]. *)
Definition selected (d : dict) : nat :=
  List.length
    (filter (fun v => match v with VBool true => true | _ => false end)
       (Dict.values d)).

(** ** Regular expressions without metacharacters

    An instance of the two regular expression helpers, to run the
    validators on examples: a pattern compiles when it has no parenthesis,
    and it matches the strings equal to it (up to the final [$]). *)

Fixpoint no_parenthesis (s : string) : bool :=
  match s with
  | EmptyString => true
  | String c s' =>
      negb (Ascii.eqb c "("%char) && negb (Ascii.eqb c ")"%char)
      && no_parenthesis s'
  end.

Definition literal_isregex (v : value) : bool :=
  match v with
  | VStr s => no_parenthesis s
  | _ => false
  end.

Definition literal_match (pattern s : string) : res bool :=
  if no_parenthesis pattern then Ok (String.eqb pattern (s ++ "$")%string)
  else Raise ReError.

(** The errors of a selection or radio value against the nested [schema]
    of its entry, that is, the errors of the options. *)
Definition options_errors (re_match : string -> string -> res bool)
  (subentries : dict) (p : path) (d : dict) : res (list error) :=
  validate_mapping
    (fun k =>
       get_with (validate_definitions re_match SubmissionValidator.class) k
         subentries)
    subentries p d.

(** ** Field trees

    The shape the compiler walks: a dict without repeated keys that has a
    [type] and, when it has [fields], a list of field trees there; nothing
    is asked of the other keys, nor of the depth. *)

Inductive field_tree : value -> Prop :=
| tree_leaf (items : dict) (t : value) :
    NoDup (Dict.keys items) ->
    Dict.get "type" items = Some t ->
    Dict.get "fields" items = None ->
    field_tree (VDict items)
| tree_group (items : dict) (t : value) (subfields : list value) :
    NoDup (Dict.keys items) ->
    Dict.get "type" items = Some t ->
    Dict.get "fields" items = Some (VList subfields) ->
    field_forest subfields ->
    field_tree (VDict items)
with field_forest : list value -> Prop :=
| forest_nil : field_forest []
| forest_cons (field : value) (fields : list value) :
    field_tree field ->
    field_forest fields ->
    field_forest (field :: fields).

Scheme field_tree_mutual := Minimality for field_tree Sort Prop
  with field_forest_mutual := Minimality for field_forest Sort Prop.

(** The three shapes of an entry compiled from an accepted field. *)
Definition option_entry (m : bool) : value :=
  VDict [("type", VStr "option"); ("mandatory", VBool m)].

(** A submitted mapping answers every option of a nested schema: it has
    the keys of the schema and no other, and [True] under every mandatory
    option. *)
Definition answers_every_option (subentries d : dict) : Prop :=
  (forall k, In k (Dict.keys d) <-> In k (Dict.keys subentries))
  /\ (forall k x,
         In (k, x) d -> In (k, option_entry true) subentries ->
         x = VBool true).

Definition accepted_entry_shape (entry : value) : Prop :=
  (exists r, entry = VDict [("type", VStr "email"); ("regex", VStr r)])
  \/ (exists m, entry = option_entry m)
  \/ (exists sub,
         entry = VDict [("type", VStr "radio"); ("schema", VDict sub)]
         /\ forall k e, Dict.get k sub = Some e -> exists m, e = option_entry m).

(** * Properties *)

(** ** The error monad *)

Lemma bind_Ok {A B : Type} (m : res A) (f : A -> res B) (b : B) :
  bind m f = Ok b <-> exists a, m = Ok a /\ f a = Ok b.
Proof.
  destruct m as [a|e]; simpl; split.
  - intros H. exists a. split; [reflexivity | exact H].
  - intros [a' [Ha H]]. injection Ha as ->. exact H.
  - discriminate.
  - intros [a' [Ha _]]. discriminate.
Qed.

Lemma and_then_true (a b : res bool) :
  a &&& b = Ok true <-> a = Ok true /\ b = Ok true.
Proof.
  unfold and_then. destruct a as [[|]|e]; simpl; split; intros H;
    try discriminate; try (destruct H; discriminate); tauto.
Qed.

Lemma and_then_total (a b : res bool) :
  (exists x, a = Ok x) ->
  (a = Ok true -> exists y, b = Ok y) ->
  exists z, a &&& b = Ok z.
Proof.
  intros [[|] ->] Hb; simpl.
  - apply Hb. reflexivity.
  - exists false. reflexivity.
Qed.

(** ** Dictionaries *)

Lemma get_with_get {A : Type} (f : value -> A) (k : string) (d : dict) :
  get_with f k d = option_map f (Dict.get k d).
Proof.
  induction d as [|[k' v] d IH]; simpl; [reflexivity|].
  destruct (String.eqb k' k); [reflexivity | exact IH].
Qed.

Lemma get_In (k : string) (v : value) (d : dict) :
  Dict.get k d = Some v -> In (k, v) d.
Proof.
  induction d as [|[k' v'] d IH]; simpl; [discriminate|].
  destruct (String.eqb k' k) eqn:E.
  - apply String.eqb_eq in E. intros [= ->]. left. now subst.
  - intros H. right. auto.
Qed.

Lemma In_get (k : string) (v : value) (d : dict) :
  NoDup (Dict.keys d) -> In (k, v) d -> Dict.get k d = Some v.
Proof.
  induction d as [|[k' v'] d IH]; simpl; [tauto|].
  intros Hnd [H|H].
  - injection H as -> ->. now rewrite String.eqb_refl.
  - inversion Hnd as [|? ? Hnotin Hnd']; subst.
    destruct (String.eqb k' k) eqn:E.
    + apply String.eqb_eq in E. subst. exfalso. apply Hnotin.
      apply (in_map fst) in H. exact H.
    + auto.
Qed.

Lemma contains_In (k : string) (d : dict) :
  Dict.contains k d = true <-> In k (Dict.keys d).
Proof.
  unfold Dict.contains. rewrite existsb_exists. split.
  - intros [x [Hx E]]. apply String.eqb_eq in E. now subst.
  - intros H. exists k. split; [exact H | apply String.eqb_refl].
Qed.

Lemma get_None (k : string) (d : dict) :
  Dict.get k d = None <-> ~ In k (Dict.keys d).
Proof.
  induction d as [|[k' v] d IH]; simpl; [tauto|].
  destruct (String.eqb k' k) eqn:E.
  - apply String.eqb_eq in E. split; [discriminate | intros H; exfalso; auto].
  - apply String.eqb_neq in E. rewrite IH. tauto.
Qed.

(** ** The type checks of the configuration validator *)

Module ConfigurationFacts.

Import ConfigurationValidator.

(** A dict whose key list is a given literal has that many entries. *)
Ltac dict_shape H d :=
  repeat (let k := fresh "k" in
          let v := fresh "v" in
          destruct d as [|[k v] d]; [discriminate H|];
          simpl in H;
          let E := fresh "E" in
          injection H as E H; subst k);
  destruct d; [clear H | discriminate H].

Lemma keys_are_true (v : value) (ks : list string) :
  keys_are v ks = Ok true <-> exists d, v = VDict d /\ Dict.keys d = ks.
Proof.
  destruct v; simpl; split; try discriminate;
    try (intros [d' [H _]]; discriminate).
  - destruct (list_eq_dec string_dec (Dict.keys d) ks); [|discriminate].
    intros _. eauto.
  - intros [d' [[= <-] H]].
    destruct (list_eq_dec string_dec (Dict.keys d) ks); [reflexivity|tauto].
Qed.

End ConfigurationFacts.

Module TypeChecks.

Import ConfigurationValidator ConfigurationFacts.

Lemma str_within_true (d : dict) (k : string) (bound : nat) :
  str_within (VDict d) k bound = Ok true <->
  exists s, Dict.get k d = Some (VStr s) /\ String.length s <= bound.
Proof.
  unfold str_within. rewrite and_then_true. simpl. unfold Dict.getitem.
  destruct (Dict.get k d) as [[| | |s| |]|]; simpl; split;
    try (intros [H1 H2]; discriminate);
    try (intros [s' [H _]]; discriminate).
  - intros [_ H]. injection H as H. apply Nat.leb_le in H. eauto.
  - intros [s' [[= <-] H]]. apply Nat.leb_le in H. now rewrite H.
Qed.

Lemma str_within_total (d : dict) (k : string) (bound : nat) :
  In k (Dict.keys d) -> exists b, str_within (VDict d) k bound = Ok b.
Proof.
  intros H. unfold str_within. simpl. unfold Dict.getitem.
  destruct (Dict.get k d) as [v|] eqn:E.
  - destruct v; simpl; eauto.
  - apply get_None in E. tauto.
Qed.

(** Totality of a conjunction of checks, one conjunct at a time. *)
Ltac split_checks :=
  repeat match goal with
         | |- exists _, _ &&& _ = Ok _ =>
             apply and_then_total; [|intros _]
         end;
  try (eexists; reflexivity);
  try (apply str_within_total; simpl; tauto).

Lemma option_accepted (v : value) :
  _validate_type_option v = Ok true <->
  exists t d m, v = option_field t d m
                /\ String.length t <= TITLE_MAX_LENGTH
                /\ String.length d <= DESCRIPTION_MAX_LENGTH.
Proof.
  unfold _validate_type_option. rewrite !and_then_true. split.
  - intros [[[[[Hd Hk] Ht] Hti] Hde] Hm].
    apply keys_are_true in Hk. destruct Hk as [d [-> Hk]].
    apply str_within_true in Hti, Hde.
    destruct Hti as [t [Et Ht']]. destruct Hde as [de [Ed Hd']].
    dict_shape Hk d. simpl in *.
    injection Et as ->. injection Ed as ->.
    destruct v; try discriminate. destruct v2; try discriminate.
    injection Ht as Ht. apply String.eqb_eq in Ht. subst.
    exists t, de, b. auto.
  - intros [t [d [m [-> [Ht Hd]]]]].
    repeat split; try reflexivity; apply str_within_true; simpl; eauto.
Qed.

Lemma option_total (v : value) : exists b, _validate_type_option v = Ok b.
Proof.
  unfold _validate_type_option.
  destruct v; try (eexists; reflexivity).
  simpl is_dict.
  destruct (keys_are (VDict d) ["type"; "title"; "description"; "mandatory"])
    as [[|]|] eqn:Hk; try (simpl in Hk; discriminate Hk);
    [|eexists; reflexivity].
  apply keys_are_true in Hk. destruct Hk as [d' [[= <-] Hk]].
  dict_shape Hk d.
  split_checks.
Qed.

Lemma all_options_total (fields : list value) :
  exists b, all_options fields = Ok b.
Proof.
  induction fields as [|f fields [bs IH]]; simpl; [eauto|].
  destruct (option_total f) as [b ->]. rewrite IH. simpl. eauto.
Qed.

Lemma all_options_true (fields : list value) :
  all_options fields = Ok true <->
  Forall (fun f => _validate_type_option f = Ok true) fields.
Proof.
  induction fields as [|f fields IH]; simpl.
  - split; auto.
  - destruct (option_total f) as [b Hb]. rewrite Hb.
    destruct (all_options_total fields) as [bs Hbs]. rewrite Hbs in *.
    simpl. split.
    + intros [= H]. apply andb_true_iff in H. destruct H as [-> ->].
      constructor; [exact Hb | now apply IH].
    + intros H. inversion H as [|? ? H1 H2]; subst.
      rewrite H1 in Hb. injection Hb as <-.
      apply IH in H2. injection H2 as ->. reflexivity.
Qed.

Lemma radio_accepted (v : value) :
  _validate_type_radio v = Ok true <->
  exists t d fields,
    v = radio_field t d fields
    /\ String.length t <= TITLE_MAX_LENGTH
    /\ String.length d <= DESCRIPTION_MAX_LENGTH
    /\ Forall (fun f => _validate_type_option f = Ok true) fields.
Proof.
  unfold _validate_type_radio. rewrite !and_then_true. split.
  - intros [[[[[[Hd Hk] Ht] Hti] Hde] Hl] Hf].
    apply keys_are_true in Hk. destruct Hk as [d [-> Hk]].
    apply str_within_true in Hti, Hde.
    destruct Hti as [t [Et Ht']]. destruct Hde as [de [Ed Hd']].
    dict_shape Hk d. simpl in *.
    injection Et as ->. injection Ed as ->.
    destruct v; try discriminate. destruct v2; try discriminate.
    injection Ht as Ht. apply String.eqb_eq in Ht. subst.
    apply all_options_true in Hf.
    exists t, de, l. auto.
  - intros [t [d [fields [-> [Ht [Hd Hf]]]]]].
    repeat split; try reflexivity;
      try (apply str_within_true; simpl; eauto).
    simpl. now apply all_options_true.
Qed.

Lemma radio_total (v : value) : exists b, _validate_type_radio v = Ok b.
Proof.
  unfold _validate_type_radio.
  destruct v; try (eexists; reflexivity).
  simpl is_dict.
  destruct (keys_are (VDict d) ["type"; "title"; "description"; "fields"])
    as [[|]|] eqn:Hk; try (simpl in Hk; discriminate Hk);
    [|eexists; reflexivity].
  apply keys_are_true in Hk. destruct Hk as [d' [[= <-] Hk]].
  dict_shape Hk d.
  apply and_then_total; [split_checks|].
  intros H. rewrite !and_then_true in H. destruct H as [_ H].
  simpl in H. destruct v2; try discriminate. simpl.
  apply all_options_total.
Qed.

Section WithRegex.

Variable isregex : value -> bool.

Lemma email_accepted (v : value) :
  _validate_type_email isregex v = Ok true <->
  exists t d r h,
    v = email_field t d r h
    /\ String.length t <= TITLE_MAX_LENGTH
    /\ String.length d <= DESCRIPTION_MAX_LENGTH
    /\ String.length r <= REGEX_MAX_LENGTH
    /\ isregex (VStr r) = true
    /\ String.length h <= HINT_MAX_LENGTH.
Proof.
  unfold _validate_type_email. rewrite !and_then_true. split.
  - intros [[[[[[[Hd Hk] Ht] Hti] Hde] Hre] Hi] Hh].
    apply keys_are_true in Hk. destruct Hk as [d [-> Hk]].
    apply str_within_true in Hti, Hde, Hre, Hh.
    destruct Hti as [t [Et Ht']]. destruct Hde as [de [Ed Hd']].
    destruct Hre as [r [Er Hr']]. destruct Hh as [h [Eh Hh']].
    dict_shape Hk d. simpl in *.
    injection Et as ->. injection Ed as ->.
    injection Er as ->. injection Eh as ->.
    destruct v; try discriminate.
    injection Ht as Ht. apply String.eqb_eq in Ht. subst.
    injection Hi as Hi.
    exists t, de, r, h. auto 10.
  - intros [t [d [r [h [-> [Ht [Hd [Hr [Hi Hh]]]]]]]]].
    repeat split; try reflexivity;
      try (apply str_within_true; simpl; eauto).
    simpl. now rewrite Hi.
Qed.

Lemma email_total (v : value) :
  exists b, _validate_type_email isregex v = Ok b.
Proof.
  unfold _validate_type_email.
  destruct v; try (eexists; reflexivity).
  simpl is_dict.
  destruct (keys_are (VDict d)
              ["type"; "title"; "description"; "regex"; "hint"])
    as [[|]|] eqn:Hk; try (simpl in Hk; discriminate Hk);
    [|eexists; reflexivity].
  apply keys_are_true in Hk. destruct Hk as [d' [[= <-] Hk]].
  dict_shape Hk d.
  split_checks.
Qed.

End WithRegex.

End TypeChecks.

(** ** Cerberus on the configuration schema *)

Section Collect.

Context {A B : Type}.

Lemma collect_total (f : A -> res (list B)) (l : list A) :
  (forall x, In x l -> exists e, f x = Ok e) ->
  exists es, collect f l = Ok es.
Proof.
  induction l as [|x l IH]; simpl; intros H; [eauto|].
  destruct (H x) as [e ->]; [auto|].
  destruct IH as [es ->]; [auto|]. simpl. eauto.
Qed.

Lemma collect_nil (f : A -> res (list B)) (l : list A) :
  collect f l = Ok [] <-> forall x, In x l -> f x = Ok [].
Proof.
  induction l as [|x l IH]; simpl.
  - split; [tauto | reflexivity].
  - split.
    + intros H. apply bind_Ok in H. destruct H as [e [He H]].
      apply bind_Ok in H. destruct H as [es [Hes H]].
      injection H as H. apply app_eq_nil in H. destruct H as [-> ->].
      intros y [<-|Hy]; [exact He|]. now apply IH.
    + intros H. rewrite (H x) by auto. simpl.
      assert (Hes : collect f l = Ok []) by (apply IH; auto).
      rewrite Hes. reflexivity.
Qed.

Lemma collect_from_total (g : nat -> A -> res (list B)) (l : list A) :
  forall i,
    (forall j x, In x l -> exists e, g j x = Ok e) ->
    exists es, collect_from i g l = Ok es.
Proof.
  induction l as [|x l IH]; simpl; intros i H; [eauto|].
  destruct (H i x) as [e ->]; [auto|].
  destruct (IH (S i)) as [es ->]; [intros; apply H; auto|]. simpl. eauto.
Qed.

Lemma collect_from_nil (g : nat -> A -> res (list B)) (l : list A) :
  forall i,
    collect_from i g l = Ok [] <->
    forall n x, nth_error l n = Some x -> g (i + n) x = Ok [].
Proof.
  induction l as [|x l IH]; simpl; intros i.
  - split; [|reflexivity]. intros _ [|n] y; discriminate.
  - split.
    + intros H. apply bind_Ok in H. destruct H as [e [He H]].
      apply bind_Ok in H. destruct H as [es [Hes H]].
      injection H as H. apply app_eq_nil in H. destruct H as [-> ->].
      intros [|n] y; simpl.
      * intros [= <-]. now rewrite Nat.add_0_r.
      * intros Hy. rewrite (IH (S i)) in Hes.
        replace (i + S n) with (S i + n) by lia. auto.
    + intros H. rewrite <- (Nat.add_0_r i) at 1.
      rewrite (H 0 x eq_refl). simpl.
      assert (Hes : collect_from (S i) g l = Ok []).
      { apply IH. intros n y Hy.
        replace (S i + n) with (i + S n) by lia. now apply H. }
      rewrite Hes. reflexivity.
Qed.

End Collect.

Module ConfigurationCerberus.

Import ConfigurationValidator TypeChecks.

Section WithRegex.

Variable isregex : value -> bool.
Variable re_match : string -> string -> res bool.

Lemma item_check_total (p : path) (item : value) :
  exists es, check_entry isregex re_match item_definitions p item = Ok es.
Proof.
  unfold check_entry.
  destruct (email_total isregex item) as [b1 H1].
  destruct (option_total item) as [b2 H2].
  destruct (radio_total item) as [b3 H3].
  destruct item; cbn; unfold type_matches; cbn;
    try (rewrite H1; cbn; destruct b1; cbn; [eauto|]);
    try (rewrite H2; cbn; destruct b2; cbn; [eauto|]);
    try (rewrite H3; cbn; destruct b3; cbn; eauto);
    eauto.
Qed.

Lemma item_check_nil (p : path) (item : value) :
  check_entry isregex re_match item_definitions p item = Ok [] <->
  top_level_accepts isregex item.
Proof.
  unfold check_entry, top_level_accepts.
  destruct (email_total isregex item) as [b1 H1].
  destruct (option_total item) as [b2 H2].
  destruct (radio_total item) as [b3 H3].
  rewrite H1, H2, H3.
  destruct item; cbn in *; unfold type_matches; cbn;
    try (injection H1 as <-; injection H2 as <-; injection H3 as <-;
         split; [discriminate | intros [H|[H|H]]; discriminate]).
  rewrite H1. cbn. destruct b1; cbn; [tauto|].
  rewrite H2. cbn. destruct b2; cbn; [tauto|].
  rewrite H3. cbn. destruct b3; cbn; [tauto|].
  split; [discriminate | intros [H|[H|H]]; discriminate].
Qed.

(** An item that none of the three type checks accepts fails the [type]
    rule of the items, and that is its only error. *)
Lemma item_check_rejected (p : path) (item : value) :
  item <> VNone ->
  ~ top_level_accepts isregex item ->
  check_entry isregex re_match item_definitions p item = Ok [(p, BadType)].
Proof.
  unfold check_entry, top_level_accepts. intros Hnone Hno.
  destruct (email_total isregex item) as [b1 H1].
  destruct (option_total item) as [b2 H2].
  destruct (radio_total item) as [b3 H3].
  destruct b1; [exfalso; apply Hno; auto|].
  destruct b2; [exfalso; apply Hno; auto|].
  destruct b3; [exfalso; apply Hno; auto|].
  destruct item; try contradiction; cbn; unfold type_matches; cbn;
    rewrite ?H1; cbn; rewrite ?H2; cbn; rewrite ?H3; reflexivity.
Qed.

Lemma fields_check_list (p : path) (items : list value) :
  check_entry isregex re_match
    (VDict [("type", VStr "list"); ("schema", item_definitions)]) p
    (VList items)
  = es0 <- (e <- collect_from 0
                   (fun i item =>
                      check_entry isregex re_match item_definitions
                        (p ++ [PIdx i]) item) items ;;
            Ok (e ++ [])) ;;
    Ok es0.
Proof. reflexivity. Qed.

Lemma fields_check (p : path) (v : value) :
  (exists es,
      check_entry isregex re_match
        (VDict [("type", VStr "list"); ("schema", item_definitions)]) p v
      = Ok es)
  /\ (check_entry isregex re_match
        (VDict [("type", VStr "list"); ("schema", item_definitions)]) p v
      = Ok [] <->
      exists fields, v = VList fields
                     /\ Forall (top_level_accepts isregex) fields).
Proof.
  destruct v as [| | | |items|];
    try (split;
         [eexists; reflexivity
         | split; [discriminate | intros [? [? _]]; discriminate]]).
  rewrite fields_check_list. split.
  - destruct (collect_from_total
                (fun i item =>
                   check_entry isregex re_match item_definitions
                     (p ++ [PIdx i]) item) items 0) as [es ->].
    + intros. apply item_check_total.
    + simpl. eauto.
  - split.
    + intros H. apply bind_Ok in H. destruct H as [es [H1 H2]].
      injection H2 as ->.
      apply bind_Ok in H1. destruct H1 as [e [H1 H2]].
      injection H2 as H2. apply app_eq_nil in H2. destruct H2 as [-> _].
      exists items. split; [reflexivity|].
      apply Forall_forall. intros x Hx.
      apply In_nth_error in Hx. destruct Hx as [n Hn].
      rewrite collect_from_nil in H1.
      apply (item_check_nil (p ++ [PIdx (0 + n)]) x). exact (H1 n x Hn).
    + intros [fields [[= <-] Hall]].
      assert (H : collect_from 0
                    (fun i item =>
                       check_entry isregex re_match item_definitions
                         (p ++ [PIdx i]) item) items = Ok []).
      { apply collect_from_nil. intros n x Hn.
        apply item_check_nil. rewrite Forall_forall in Hall.
        apply Hall. eapply nth_error_In. exact Hn. }
      rewrite H. reflexivity.
Qed.

(** Turn the boolean tests of the integer rules into propositions. *)
Ltac tests_to_props :=
  repeat match goal with
         | H : (_ <? _)%Z = true |- _ => apply Z.ltb_lt in H
         | H : (_ <? _)%Z = false |- _ => apply Z.ltb_ge in H
         | H : (_ =? _)%Z = true |- _ => apply Z.eqb_eq in H
         | H : (_ =? _)%Z = false |- _ => apply Z.eqb_neq in H
         | H : (_ || _)%bool = true |- _ => apply orb_true_iff in H
         | H : (_ || _)%bool = false |- _ =>
             apply orb_false_iff in H; destruct H
         end.

Lemma entry_check (k : string) (defs : value) (p : path) (v : value) :
  Dict.get k SCHEMA = Some defs ->
  (exists es, check_entry isregex re_match defs p v = Ok es)
  /\ (check_entry isregex re_match defs p v = Ok [] <->
      entry_ok isregex k v).
Proof.
  intros H. unfold SCHEMA in H. cbn [Dict.get] in H.
  repeat match type of H with
         | context [String.eqb ?a k] =>
             destruct (String.eqb a k) eqn:E;
             [apply String.eqb_eq in E; subst k; injection H as <-
             | clear E]
         end; [..|discriminate H].
  8: apply fields_check.
  all: unfold check_entry, entry_ok, str_between, non_negative_integer;
    cbn [String.eqb Ascii.eqb Bool.eqb].
  all: destruct v as [|b|z|s|l|d]; try destruct b;
    cbn -[Z.ltb Z.of_nat String.length Z.eqb].
  all: repeat match goal with
              | |- context [if ?c then _ else _] => destruct c eqn:?
              end;
    cbn; unfold TITLE_MAX_LENGTH, DESCRIPTION_MAX_LENGTH in *;
    (split; [eexists; reflexivity|]); tests_to_props;
    (split;
     [try discriminate; intros _; eexists; (split; [reflexivity|]); lia
     | intros [x [Hx Hb]]; try discriminate Hx;
       inversion Hx; subst; try reflexivity; lia]).
Qed.

Lemma unknown_key (k : string) (v : value) :
  Dict.get k SCHEMA = None -> ~ entry_ok isregex k v.
Proof.
  intros H. unfold SCHEMA in H. cbn [Dict.get] in H.
  unfold entry_ok.
  repeat match type of H with
         | context [String.eqb ?a k] =>
             rewrite (String.eqb_sym a k) in H;
             destruct (String.eqb k a); [discriminate H|]
         end.
  tauto.
Qed.

Lemma missing_fields_nil (p : path) (doc : dict) :
  missing_fields p SCHEMA doc = [] <->
  forall k, In k (Dict.keys SCHEMA) -> In k (Dict.keys doc).
Proof.
  unfold missing_fields, SCHEMA.
  cbn [flat_map fst snd Dict.keys map].
  split.
  - intros H k Hk.
    repeat match type of H with
           | context [Dict.contains ?a doc] =>
               destruct (Dict.contains a doc) eqn:?; [|discriminate H]
           end.
    cbn in Hk.
    repeat (destruct Hk as [<-|Hk]; [now apply contains_In|]).
    contradiction.
  - intros H.
    repeat match goal with
           | |- context [Dict.contains ?a doc] =>
               replace (Dict.contains a doc) with true
                 by (symmetry; apply contains_In, H; cbn; tauto)
           end.
    reflexivity.
Qed.

(** The check Cerberus runs on one entry of the document. *)
Lemma document_entry (p : path) (k : string) (v : value) :
  let run :=
    match get_with (validate_definitions re_match (class isregex)) k SCHEMA
    with
    | Some check => check (p ++ [PKey k]) v
    | None => Ok [(p ++ [PKey k], UnknownField)]
    end in
  (exists es, run = Ok es) /\ (run = Ok [] <-> entry_ok isregex k v).
Proof.
  cbv zeta. rewrite get_with_get.
  destruct (Dict.get k SCHEMA) as [defs|] eqn:E; simpl.
  - apply (entry_check k defs (p ++ [PKey k]) v E).
  - split; [eauto|]. split; [discriminate|].
    intros H. exfalso. exact (unknown_key k v E H).
Qed.

Lemma errors_total (d : dict) :
  exists es, configuration_errors isregex re_match (VDict d) = Ok es.
Proof.
  unfold configuration_errors, errors, validate_mapping.
  destruct (collect_total
              (fun item : string * value =>
                 match get_with
                         (validate_definitions re_match (class isregex))
                         (fst item) SCHEMA with
                 | Some check => check ([] ++ [PKey (fst item)]) (snd item)
                 | None => Ok [([] ++ [PKey (fst item)], UnknownField)]
                 end) d) as [es ->].
  - intros [k v] _. apply (document_entry [] k v).
  - simpl. eauto.
Qed.

Lemma errors_nil (d : dict) :
  configuration_errors isregex re_match (VDict d) = Ok [] <->
  entries_ok isregex d.
Proof.
  unfold configuration_errors, errors, validate_mapping, entries_ok.
  rewrite bind_Ok. split.
  - intros [es [H1 H2]]. injection H2 as H2.
    apply app_eq_nil in H2. destruct H2 as [-> H2]. split.
    + intros k v Hin. rewrite collect_nil in H1.
      apply (document_entry [] k v). exact (H1 (k, v) Hin).
    + now apply (missing_fields_nil []).
  - intros [H1 H2]. exists []. split.
    + apply collect_nil. intros [k v] Hin.
      apply (document_entry [] k v). now apply H1.
    + apply (missing_fields_nil []) in H2. now rewrite H2.
Qed.

Lemma validate_configuration_total (d : dict) :
  exists b, validate_configuration isregex re_match (VDict d) = Ok b.
Proof.
  unfold validate_configuration, validate.
  destruct (errors_total d) as [es H].
  unfold configuration_errors in H. rewrite H. simpl. eauto.
Qed.

Lemma validate_configuration_true (d : dict) :
  validate_configuration isregex re_match (VDict d) = Ok true <->
  entries_ok isregex d.
Proof.
  rewrite <- errors_nil.
  unfold validate_configuration, validate, configuration_errors.
  destruct (errors re_match (class isregex) SCHEMA (VDict d))
    as [[|e es]|]; simpl; split; congruence.
Qed.

Lemma validate_configuration_dict (c : value) :
  validate_configuration isregex re_match c = Ok true ->
  exists d, c = VDict d.
Proof.
  destruct c; try discriminate. eauto.
Qed.

End WithRegex.

End ConfigurationCerberus.

(** ** The schema compiler *)

Module Compiler.

Import SubmissionValidator.

Lemma str_of_nat_inj (n m : nat) : str_of_nat n = str_of_nat m -> n = m.
Proof.
  unfold str_of_nat. intros H.
  apply DecimalNat.Unsigned.to_uint_inj.
  assert (E : NilEmpty.uint_of_string (NilEmpty.string_of_uint (Nat.to_uint n))
              = NilEmpty.uint_of_string
                  (NilEmpty.string_of_uint (Nat.to_uint m)))
    by now rewrite H.
  rewrite !NilEmpty.usu in E. now injection E.
Qed.

Lemma set_fresh (k : string) (v : value) (d : dict) :
  ~ In k (Dict.keys d) -> Dict.set k v d = d ++ [(k, v)].
Proof.
  induction d as [|[k' v'] d IH]; simpl; intros H; [reflexivity|].
  destruct (String.eqb k' k) eqn:E.
  - apply String.eqb_eq in E. tauto.
  - rewrite IH; tauto.
Qed.

Lemma enumerate_mirrors (fields : list value) :
  (forall f, In f fields ->
             exists e, _generate_field_schema f = Ok e /\ compiled_from f e) ->
  forall i acc,
    (forall j, i <= j -> ~ In (str_of_nat (j + 1)) (Dict.keys acc)) ->
    exists entries,
      enumerate_from _generate_field_schema i fields acc
      = Ok (acc ++ entries)
      /\ mirrors_from i fields entries.
Proof.
  induction fields as [|f fields IH]; intros Hf i acc Hfresh; simpl.
  - exists []. rewrite app_nil_r. split; [reflexivity | constructor].
  - destruct (Hf f) as [e [He Hc]]; [now left|].
    rewrite He. simpl. rewrite set_fresh by (apply Hfresh; lia).
    destruct (IH (fun g Hg => Hf g (or_intror Hg)) (S i)
                (acc ++ [(str_of_nat (i + 1), e)])) as [es [Hes Hm]].
    + intros j Hj Hin. unfold Dict.keys in Hin.
      rewrite map_app in Hin. apply in_app_or in Hin.
      destruct Hin as [Hin|[Hin|[]]].
      * exact (Hfresh j ltac:(lia) Hin).
      * simpl in Hin. apply str_of_nat_inj in Hin. lia.
    + exists ((str_of_nat (i + 1), e) :: es). split.
      * rewrite Hes. now rewrite <- app_assoc.
      * now constructor.
Qed.

Lemma enumerate_list (fields : list value) :
  (forall f, In f fields ->
             exists e, _generate_field_schema f = Ok e /\ compiled_from f e) ->
  exists entries,
    enumerate _generate_field_schema (VList fields) = Ok entries
    /\ mirrors_from 0 fields entries.
Proof.
  intros Hf.
  destruct (enumerate_mirrors fields Hf 0 []) as [es [H1 H2]]; [auto|].
  exists es. split; [exact H1 | exact H2].
Qed.

(** [carries] for a field and an entry given by their literal dicts. *)
Ltac carries_by_computation :=
  split; [eexists; split; reflexivity|];
  split;
  [ intros k Hk; cbn in Hk;
    repeat (destruct Hk as [<-|Hk]; [reflexivity|]); contradiction
  | intros k Hk; cbn in Hk;
    repeat (destruct Hk as [<-|Hk]; [cbn; tauto|]); contradiction ].

Lemma compile_option (t d : string) (m : bool) :
  _generate_field_schema (option_field t d m)
  = Ok (VDict [("type", VStr "option"); ("mandatory", VBool m)])
  /\ compiled_from (option_field t d m)
       (VDict [("type", VStr "option"); ("mandatory", VBool m)]).
Proof.
  split; [reflexivity|].
  apply compiled_leaf; [reflexivity | carries_by_computation | reflexivity].
Qed.

Lemma compile_email (t d r h : string) :
  _generate_field_schema (email_field t d r h)
  = Ok (VDict [("type", VStr "email"); ("regex", VStr r)])
  /\ compiled_from (email_field t d r h)
       (VDict [("type", VStr "email"); ("regex", VStr r)]).
Proof.
  split; [reflexivity|].
  apply compiled_leaf; [reflexivity | carries_by_computation | reflexivity].
Qed.

Lemma generate_radio (t d : string) (fields : list value) :
  _generate_field_schema (radio_field t d fields)
  = schema <- enumerate _generate_field_schema (VList fields) ;;
    Ok (VDict [("type", VStr "radio"); ("schema", VDict schema)]).
Proof.
  cbn. destruct (enumerate_from _ 0 fields []); reflexivity.
Qed.

Lemma compile_accepted_option (f : value) :
  ConfigurationValidator._validate_type_option f = Ok true ->
  exists e, _generate_field_schema f = Ok e /\ compiled_from f e.
Proof.
  intros H. apply TypeChecks.option_accepted in H.
  destruct H as [t [d [m [-> _]]]].
  eexists. apply compile_option.
Qed.

Lemma compile_radio (t d : string) (fields : list value) :
  Forall (fun f => ConfigurationValidator._validate_type_option f = Ok true)
    fields ->
  exists subentries,
    _generate_field_schema (radio_field t d fields)
    = Ok (VDict [("type", VStr "radio"); ("schema", VDict subentries)])
    /\ mirrors_from 0 fields subentries
    /\ compiled_from (radio_field t d fields)
         (VDict [("type", VStr "radio"); ("schema", VDict subentries)]).
Proof.
  intros Hall. rewrite Forall_forall in Hall.
  destruct (enumerate_list fields) as [es [H1 H2]].
  { intros f Hf. apply compile_accepted_option. auto. }
  exists es. rewrite generate_radio, H1. simpl.
  split; [reflexivity|]. split; [exact H2|].
  apply compiled_group with (subfields := fields) (subentries := es);
    [reflexivity | carries_by_computation | reflexivity | exact H2].
Qed.

Lemma compile_accepted (isregex : value -> bool) (f : value) :
  top_level_accepts isregex f ->
  exists e, _generate_field_schema f = Ok e /\ compiled_from f e.
Proof.
  intros [H|[H|H]].
  - apply TypeChecks.email_accepted in H.
    destruct H as [t [d [r [h [-> _]]]]].
    eexists. apply compile_email.
  - now apply compile_accepted_option.
  - apply TypeChecks.radio_accepted in H.
    destruct H as [t [d [fields [-> [_ [_ Hall]]]]]].
    destruct (compile_radio t d fields Hall) as [es [H1 [_ H3]]].
    eauto.
Qed.

(** The [fields] of a configuration the validator accepts. *)
Lemma accepted_fields (isregex : value -> bool)
  (re_match : string -> string -> res bool) (c : value) :
  ConfigurationValidator.validate_configuration isregex re_match c = Ok true ->
  exists d fields,
    c = VDict d
    /\ Dict.get "fields" d = Some (VList fields)
    /\ Forall (top_level_accepts isregex) fields.
Proof.
  intros H.
  destruct (ConfigurationCerberus.validate_configuration_dict _ _ _ H)
    as [d ->].
  apply ConfigurationCerberus.validate_configuration_true in H.
  destruct H as [Hentries Hkeys].
  assert (Hin : In "fields" (Dict.keys d)) by (apply Hkeys; cbn; tauto).
  destruct (Dict.get "fields" d) as [v|] eqn:E;
    [|apply get_None in E; contradiction].
  specialize (Hentries _ _ (get_In _ _ _ E)).
  unfold entry_ok in Hentries. cbn in Hentries.
  destruct Hentries as [fields [-> Hall]].
  exists d, fields. auto.
Qed.

End Compiler.

(** ** Selections *)

Module Selections.

Import SubmissionValidator.

Lemma sum_values_bools (vs : list value) (acc : Z) :
  forallb is_bool vs = true ->
  sum_values vs acc
  = Ok (acc + Z.of_nat
                (List.length
                   (filter (fun v => match v with
                                     | VBool true => true
                                     | _ => false
                                     end) vs)))%Z.
Proof.
  revert acc. induction vs as [|v vs IH]; intros acc H; simpl.
  - now rewrite Z.add_0_r.
  - simpl in H. apply andb_true_iff in H. destruct H as [Hv Hvs].
    destruct v as [|[|]| | | |]; try discriminate; simpl;
      rewrite IH by exact Hvs; f_equal; simpl length; lia.
Qed.

Lemma count_selections_bools (d : dict) :
  forallb is_bool (Dict.values d) = true ->
  _count_selections (VDict d) = Ok (Z.of_nat (selected d)).
Proof.
  intros H. simpl. rewrite sum_values_bools by exact H. reflexivity.
Qed.

Lemma radio_check_bools (d : dict) :
  forallb is_bool (Dict.values d) = true ->
  _validate_type_radio (VDict d) = Ok (Nat.eqb (selected d) 1).
Proof.
  intros H. unfold _validate_type_radio.
  rewrite count_selections_bools by exact H.
  simpl. rewrite H. simpl.
  destruct (Nat.eqb_spec (selected d) 1) as [E|E].
  - rewrite E. reflexivity.
  - destruct (Z.eqb_spec (Z.of_nat (selected d)) 1); [lia | reflexivity].
Qed.

End Selections.

(** ** Entries of the submission schema *)

Section Pairwise.

Context {A B : Type} (R : A -> B -> Prop).

Lemma Forall2_In_l (l : list A) (l' : list B) (x : A) :
  Forall2 R l l' -> In x l -> exists y, In y l' /\ R x y.
Proof.
  induction 1 as [|a b l l' Hab _ IH]; simpl; [tauto|].
  intros [<-|Hx]; [eauto|].
  destruct (IH Hx) as [y [Hy Hr]]. eauto.
Qed.

Lemma Forall2_In_r (l : list A) (l' : list B) (y : B) :
  Forall2 R l l' -> In y l' -> exists x, In x l /\ R x y.
Proof.
  induction 1 as [|a b l l' Hab _ IH]; simpl; [tauto|].
  intros [<-|Hy]; [eauto|].
  destruct (IH Hy) as [x [Hx Hr]]. eauto.
Qed.

End Pairwise.

Lemma missing_fields_none (p : path) (schema doc : dict) :
  (forall e, In e schema -> Dict.contains (fst e) doc = true) ->
  missing_fields p schema doc = [].
Proof.
  unfold missing_fields.
  induction schema as [|e schema IH]; simpl; intros H; [reflexivity|].
  rewrite (H e) by auto. simpl. apply IH. auto.
Qed.

Module SubmissionFields.

Import SubmissionValidator Selections.

Section WithRegex.

Variable re_match : string -> string -> res bool.

Lemma radio_entry_rejects (rules : dict) (p : path) (d : dict) :
  Dict.get "type" rules = Some (VStr "radio") ->
  forallb is_bool (Dict.values d) = true ->
  selected d <> 1 ->
  field_errors re_match (VDict rules) p (VDict d) = Ok [(p, BadType)].
Proof.
  intros Ht Hb Hn. unfold field_errors. simpl. rewrite Ht.
  cbn -[_validate_type_radio]. rewrite radio_check_bools by exact Hb.
  apply Nat.eqb_neq in Hn. rewrite Hn. reflexivity.
Qed.

Lemma radio_entry_one (subentries : dict) (p : path) (d : dict) :
  forallb is_bool (Dict.values d) = true ->
  selected d = 1 ->
  field_errors re_match
    (VDict [("type", VStr "radio"); ("schema", VDict subentries)]) p (VDict d)
  = options_errors re_match subentries p d.
Proof.
  intros Hb H1. unfold field_errors, options_errors.
  cbn -[_validate_type_radio validate_mapping].
  rewrite radio_check_bools by exact Hb. rewrite H1. simpl.
  destruct (validate_mapping _ subentries p d); simpl;
    [now rewrite app_nil_r | reflexivity].
Qed.

Lemma min_select_rule (lo : Z) (d : dict) :
  forallb is_bool (Dict.values d) = true ->
  _validate_min_select (VInt lo) (VDict d)
  = Ok (if (Z.of_nat (selected d) <? lo)%Z
        then [("must select at least " ++ str_of_Z lo ++ " options")%string]
        else []).
Proof.
  intros Hb. unfold _validate_min_select.
  rewrite count_selections_bools by exact Hb. reflexivity.
Qed.

Lemma max_select_rule (hi : Z) (d : dict) :
  forallb is_bool (Dict.values d) = true ->
  _validate_max_select (VInt hi) (VDict d)
  = Ok (if (hi <? Z.of_nat (selected d))%Z
        then [("must select at most " ++ str_of_Z hi ++ " options")%string]
        else []).
Proof.
  intros Hb. unfold _validate_max_select.
  rewrite count_selections_bools by exact Hb. reflexivity.
Qed.

Lemma selection_entry_errors (subentries : dict) (lo hi : Z) (p : path)
  (d : dict) :
  forallb is_bool (Dict.values d) = true ->
  field_errors re_match
    (VDict [("type", VStr "selection"); ("schema", VDict subentries);
            ("min_select", VInt lo); ("max_select", VInt hi)]) p (VDict d)
  = es <- options_errors re_match subentries p d ;;
    Ok (es
        ++ (if (Z.of_nat (selected d) <? lo)%Z
            then [(p, Custom ("must select at least " ++ str_of_Z lo
                              ++ " options")%string)]
            else [])
        ++ (if (hi <? Z.of_nat (selected d))%Z
            then [(p, Custom ("must select at most " ++ str_of_Z hi
                              ++ " options")%string)]
            else [])).
Proof.
  intros Hb. unfold field_errors, options_errors.
  cbn -[_validate_type_selection _validate_min_select _validate_max_select
          validate_mapping Z.ltb].
  rewrite min_select_rule, max_select_rule by exact Hb.
  simpl _validate_type_selection. rewrite Hb. simpl.
  destruct (validate_mapping _ subentries p d); simpl; [|reflexivity].
  destruct (Z.of_nat (selected d) <? lo)%Z, (hi <? Z.of_nat (selected d))%Z;
    reflexivity.
Qed.

Lemma text_entry_errors (lo hi : Z) (p : path) (s : string) :
  field_errors re_match
    (VDict [("type", VStr "text"); ("min_chars", VInt lo);
            ("max_chars", VInt hi)]) p (VStr s)
  = Ok ((if (Z.of_nat (String.length s) <? lo)%Z
         then [(p, Custom ("must be at least " ++ str_of_Z lo
                           ++ " characters long")%string)]
         else [])
        ++ (if (hi <? Z.of_nat (String.length s))%Z
            then [(p, Custom ("must be at most " ++ str_of_Z hi
                              ++ " characters long")%string)]
            else [])).
Proof.
  unfold field_errors. cbn -[Z.ltb Z.of_nat String.length].
  destruct (Z.of_nat (String.length s) <? lo)%Z,
    (hi <? Z.of_nat (String.length s))%Z; reflexivity.
Qed.

Lemma option_entry_errors (m : bool) (p : path) (b : bool) :
  field_errors re_match
    (VDict [("type", VStr "option"); ("mandatory", VBool m)]) p (VBool b)
  = Ok (if m && negb b then [(p, Custom "this field is mandatory")] else []).
Proof.
  destruct m, b; reflexivity.
Qed.

End WithRegex.

Lemma generate_selection (t d : string) (lo hi : Z) (fields : list value) :
  _generate_field_schema (selection_field t d lo hi fields)
  = schema <- enumerate _generate_field_schema (VList fields) ;;
    Ok (VDict [("type", VStr "selection"); ("schema", VDict schema);
               ("min_select", VInt lo); ("max_select", VInt hi)]).
Proof.
  cbn. destruct (enumerate_from _ 0 fields []); reflexivity.
Qed.

End SubmissionFields.

(** ** The compiler on any field *)

Module CompilerFacts.

Import SubmissionValidator.

Lemma is_rule_In (k : string) :
  existsb (String.eqb k) rules = true <-> In k rules.
Proof.
  rewrite existsb_exists. split.
  - intros [x [Hx E]]. apply String.eqb_eq in E. now subst.
  - intros H. exists k. split; [exact H | apply String.eqb_refl].
Qed.

Lemma get_set_same (k : string) (v : value) (d : dict) :
  Dict.get k (Dict.set k v d) = Some v.
Proof.
  induction d as [|[k' v'] d IH]; simpl.
  - now rewrite String.eqb_refl.
  - destruct (String.eqb k' k) eqn:E; simpl.
    + now rewrite String.eqb_refl.
    + now rewrite E.
Qed.

Lemma get_set_other (k k' : string) (v : value) (d : dict) :
  k' <> k -> Dict.get k' (Dict.set k v d) = Dict.get k' d.
Proof.
  intros Hne. induction d as [|[k0 v0] d IH]; simpl.
  - apply String.eqb_neq in Hne. rewrite String.eqb_sym. now rewrite Hne.
  - destruct (String.eqb k0 k) eqn:E; simpl.
    + apply String.eqb_eq in E. subst k0.
      apply String.eqb_neq in Hne. rewrite String.eqb_sym in Hne.
      now rewrite Hne.
    + destruct (String.eqb k0 k'); [reflexivity | exact IH].
Qed.

Lemma keys_set (k k' : string) (v : value) (d : dict) :
  In k' (Dict.keys (Dict.set k v d)) <-> k' = k \/ In k' (Dict.keys d).
Proof.
  induction d as [|[k0 v0] d IH]; simpl.
  - intuition.
  - destruct (String.eqb k0 k) eqn:E; simpl.
    + apply String.eqb_eq in E. subst k0. intuition.
    + rewrite IH. intuition.
Qed.

Lemma copy_rules_get_other (k : string) (items fs : dict) :
  ~ In k rules ->
  Dict.get k (copy_rules items fs) = Dict.get k fs.
Proof.
  intros Hk. revert fs.
  induction items as [|[r v] items IH]; intros fs; cbn [copy_rules];
    [reflexivity|].
  rewrite IH.
  destruct (existsb (String.eqb r) rules) eqn:E; [|reflexivity].
  apply is_rule_In in E. apply get_set_other. congruence.
Qed.

Lemma copy_rules_get_rule (k : string) (items fs : dict) :
  In k rules ->
  NoDup (Dict.keys items) ->
  Dict.get k (copy_rules items fs)
  = match Dict.get k items with
    | Some v => Some v
    | None => Dict.get k fs
    end.
Proof.
  intros Hk. revert fs.
  induction items as [|[r v] items IH]; intros fs Hnd;
    cbn [copy_rules Dict.get]; [reflexivity|].
  inversion Hnd as [|? ? Hnotin Hnd']; subst.
  rewrite IH by exact Hnd'.
  destruct (String.eqb r k) eqn:E.
  - apply String.eqb_eq in E. subst r.
    assert (Hnone : Dict.get k items = None) by now apply get_None.
    rewrite Hnone.
    assert (Hr : existsb (String.eqb k) rules = true) by now apply is_rule_In.
    rewrite Hr. apply get_set_same.
  - destruct (Dict.get k items); [reflexivity|].
    destruct (existsb (String.eqb r) rules); [|reflexivity].
    apply get_set_other. apply String.eqb_neq in E. congruence.
Qed.

Lemma copy_rules_keys (k : string) (items fs : dict) :
  In k (Dict.keys (copy_rules items fs)) ->
  In k (Dict.keys fs) \/ In k rules.
Proof.
  revert fs.
  induction items as [|[r v] items IH]; intros fs; cbn [copy_rules];
    [auto|].
  intros H. apply IH in H. destruct H as [H|H]; [|auto].
  destruct (existsb (String.eqb r) rules) eqn:E; [|auto].
  apply keys_set in H. destruct H as [->|H]; [|auto].
  right. now apply is_rule_In.
Qed.

Lemma generate_field_schema_dict (items : dict) :
  _generate_field_schema (VDict items)
  = t <- Dict.getitem "type" items ;;
    fs <- match Dict.get "fields" items with
          | Some v =>
              schema <- enumerate _generate_field_schema v ;;
              Ok (Dict.set "schema" (VDict schema) [("type", t)])
          | None => Ok [("type", t)]
          end ;;
    Ok (VDict (copy_rules items fs)).
Proof.
  change (_generate_field_schema (VDict items))
    with (t <- Dict.getitem "type" items ;;
          fs <- match get_with (enumerate _generate_field_schema) "fields"
                        items with
                | Some sub =>
                    schema <- sub ;;
                    Ok (Dict.set "schema" (VDict schema) [("type", t)])
                | None => Ok [("type", t)]
                end ;;
          Ok (VDict (copy_rules items fs))).
  rewrite get_with_get.
  destruct (Dict.get "fields" items); reflexivity.
Qed.

(** What [carries] asks, for the entry the compiler builds from [items]
    and the first entries [fs] of it. *)
Lemma copy_rules_carries (items fs : dict) (t : value) :
  NoDup (Dict.keys items) ->
  Dict.get "type" items = Some t ->
  Dict.get "type" fs = Some t ->
  (forall k, In k rules -> Dict.get k fs = None) ->
  (forall k, In k (Dict.keys fs) -> k = "type" \/ k = "schema") ->
  carries items (copy_rules items fs).
Proof.
  intros Hnd Ht Hfs Hnone Hkeys. split; [|split].
  - exists t. split; [exact Ht|].
    rewrite copy_rules_get_other; [exact Hfs|].
    cbn. intuition discriminate.
  - intros k Hk. rewrite copy_rules_get_rule by assumption.
    rewrite (Hnone k Hk). now destruct (Dict.get k items).
  - intros k Hk. apply copy_rules_keys in Hk.
    destruct Hk as [Hk|Hk]; [|auto].
    destruct (Hkeys k Hk); auto.
Qed.

Lemma field_tree_compiles :
  forall f, field_tree f ->
            exists e, _generate_field_schema f = Ok e /\ compiled_from f e.
Proof.
  apply (field_tree_mutual
           (fun f => exists e, _generate_field_schema f = Ok e
                               /\ compiled_from f e)
           (fun fs => forall f, In f fs ->
                                exists e, _generate_field_schema f = Ok e
                                          /\ compiled_from f e)).
  - intros items t Hnd Ht Hf.
    rewrite generate_field_schema_dict. unfold Dict.getitem.
    rewrite Ht, Hf. simpl. eexists. split; [reflexivity|].
    apply compiled_leaf; [exact Hf | |].
    + apply (copy_rules_carries items [("type", t)] t Hnd Ht);
        [reflexivity | |].
      * intros k Hk. cbn in Hk.
        repeat (destruct Hk as [<-|Hk]; [reflexivity|]). contradiction.
      * intros k [<-|[]]. auto.
    + rewrite copy_rules_get_other; [reflexivity|].
      cbn. intuition discriminate.
  - intros items t subfields Hnd Ht Hf _ IH.
    destruct (Compiler.enumerate_list subfields IH) as [es [H1 H2]].
    rewrite generate_field_schema_dict. unfold Dict.getitem.
    rewrite Ht, Hf, H1. simpl. eexists. split; [reflexivity|].
    apply compiled_group with (subfields := subfields) (subentries := es);
      [exact Hf | | | exact H2].
    + apply (copy_rules_carries items
               [("type", t); ("schema", VDict es)] t Hnd Ht);
        [reflexivity | |].
      * intros k Hk. cbn in Hk.
        repeat (destruct Hk as [<-|Hk]; [reflexivity|]). contradiction.
      * intros k [<-|[<-|[]]]; auto.
    + rewrite copy_rules_get_other; [reflexivity|].
      cbn. intuition discriminate.
  - intros f [].
  - intros f fs _ Hf _ IH g [<-|Hg]; auto.
Qed.

Lemma positions_distinct (i n : nat) :
  NoDup (map (fun j => str_of_nat (j + 1)) (seq i n)).
Proof.
  revert i. induction n as [|n IH]; intros i; simpl; constructor.
  - intros H. apply in_map_iff in H. destruct H as [j [Hj Hin]].
    apply Compiler.str_of_nat_inj in Hj. apply in_seq in Hin. lia.
  - apply IH.
Qed.

Section Enumerate.

Variable f : value -> res value.

Lemma enumerate_from_spec (l : list value) :
  forall i acc r,
    (forall j, i <= j -> ~ In (str_of_nat (j + 1)) (Dict.keys acc)) ->
    enumerate_from f i l acc = Ok r ->
    exists es,
      r = acc ++ es
      /\ Dict.keys es = map (fun j => str_of_nat (j + 1))
                          (seq i (List.length l))
      /\ Forall2 (fun x e => f x = Ok (snd e)) l es.
Proof.
  induction l as [|x l IH]; intros i acc r Hfresh; simpl.
  - intros [= <-]. exists []. rewrite app_nil_r. repeat split. constructor.
  - destruct (f x) as [y|e] eqn:Hy; simpl; [|discriminate].
    rewrite Compiler.set_fresh by (apply Hfresh; lia).
    intros H. apply IH in H.
    + destruct H as [es [-> [Hk Hall]]].
      exists ((str_of_nat (i + 1), y) :: es). split; [|split].
      * now rewrite <- app_assoc.
      * simpl. now rewrite Hk.
      * constructor; [exact Hy | exact Hall].
    + intros j Hj Hin. unfold Dict.keys in Hin.
      rewrite map_app in Hin. apply in_app_or in Hin.
      destruct Hin as [Hin|[Hin|[]]].
      * exact (Hfresh j ltac:(lia) Hin).
      * simpl in Hin. apply Compiler.str_of_nat_inj in Hin. lia.
Qed.

Lemma enumerate_from_raises (before after : list value) (x : value)
  (e : pyexc) :
  (forall g, In g before -> exists y, f g = Ok y) ->
  f x = Raise e ->
  forall i acc, enumerate_from f i (before ++ x :: after) acc = Raise e.
Proof.
  intros Hb Hx.
  induction before as [|g before IH]; intros i acc; simpl.
  - now rewrite Hx.
  - destruct (Hb g) as [y ->]; [now left|]. simpl.
    apply IH. intros h Hh. apply Hb. now right.
Qed.

Lemma entries_at_positions (l : list value) (es : dict) :
  Forall2 (fun x e => f x = Ok (snd e)) l es ->
  forall i,
    Dict.keys es = map (fun j => str_of_nat (j + 1)) (seq i (List.length l)) ->
    forall n x,
      nth_error l n = Some x ->
      exists e, f x = Ok e /\ In (str_of_nat (i + n + 1), e) es.
Proof.
  induction 1 as [|x [k e] l es Hx _ IH]; intros i Hk n y Hn.
  - destruct n; discriminate.
  - simpl in Hk. injection Hk as Hk1 Hk2. destruct n as [|n]; simpl in Hn.
    + injection Hn as <-. exists e. split; [exact Hx|].
      left. rewrite Nat.add_0_r. now rewrite <- Hk1.
    + destruct (IH (S i) Hk2 n y Hn) as [e' [He' Hin]].
      exists e'. split; [exact He'|]. right.
      replace (i + S n + 1) with (S i + n + 1) by lia. exact Hin.
Qed.

End Enumerate.

Lemma copy_rules_set_other (k : string) (v : value) (items fs : dict) :
  ~ In k rules ->
  copy_rules (Dict.set k v items) fs = copy_rules items fs.
Proof.
  intros Hk.
  assert (Hr : existsb (String.eqb k) rules = false).
  { destruct (existsb (String.eqb k) rules) eqn:E; [|reflexivity].
    apply is_rule_In in E. contradiction. }
  revert fs.
  induction items as [|[k0 v0] items IH]; intros fs;
    cbn [Dict.set copy_rules].
  - now rewrite Hr.
  - destruct (String.eqb k0 k) eqn:E; cbn [copy_rules].
    + apply String.eqb_eq in E. subst k0. now rewrite Hr.
    + apply IH.
Qed.

End CompilerFacts.

(** ** The submission validator on any value *)

Module SubmissionFacts.

Import SubmissionValidator.

Lemma all_bools (vs : list value) :
  forallb is_bool vs = true <-> Forall (fun x => exists b, x = VBool b) vs.
Proof.
  rewrite forallb_forall, Forall_forall. split; intros H x Hx.
  - specialize (H x Hx). destruct x; try discriminate. eauto.
  - destruct (H x Hx) as [b ->]. reflexivity.
Qed.

Lemma radio_type_total (v : value) :
  exists b, _validate_type_radio v = Ok b.
Proof.
  destruct v; try (eexists; reflexivity).
  destruct (forallb is_bool (Dict.values d)) eqn:E.
  - rewrite Selections.radio_check_bools by exact E. eauto.
  - unfold _validate_type_radio. simpl. rewrite E. simpl. eauto.
Qed.

Lemma radio_type_true (v : value) :
  _validate_type_radio v = Ok true <->
  exists d, v = VDict d
            /\ forallb is_bool (Dict.values d) = true
            /\ selected d = 1.
Proof.
  destruct v; try (split; [discriminate | intros [d' [H _]]; discriminate]).
  destruct (forallb is_bool (Dict.values d)) eqn:E.
  - rewrite Selections.radio_check_bools by exact E. split.
    + intros [= H]. apply Nat.eqb_eq in H. eauto.
    + intros [d' [[= <-] [_ H]]]. now rewrite H.
  - unfold _validate_type_radio. simpl. rewrite E. simpl. split.
    + discriminate.
    + intros [d' [[= <-] [H _]]]. congruence.
Qed.

(** Two entries of a selection under different keys that are both [True]
    make at least two selected. *)
Lemma two_selected (d : dict) (k1 k2 : string) :
  k1 <> k2 ->
  In (k1, VBool true) d -> In (k2, VBool true) d ->
  2 <= selected d.
Proof.
  intros Hne H1 H2. unfold selected, Dict.values.
  induction d as [|[k v] d IH]; [contradiction|].
  assert (Hone : forall k', In (k', VBool true) d ->
                            1 <= List.length
                                   (filter
                                      (fun v => match v with
                                                | VBool true => true
                                                | _ => false
                                                end) (map snd d))).
  { clear. intros k' H. induction d as [|[k0 v0] d IH]; [contradiction|].
    simpl. destruct H as [H|H].
    - injection H as _ ->. simpl. lia.
    - specialize (IH H). destruct v0 as [|[|]| | | |]; simpl; lia. }
  simpl. destruct H1 as [H1|H1], H2 as [H2|H2].
  - congruence.
  - injection H1 as _ ->. simpl. specialize (Hone _ H2). lia.
  - injection H2 as _ ->. simpl. specialize (Hone _ H1). lia.
  - specialize (IH H1 H2). destruct v as [|[|]| | | |]; simpl; lia.
Qed.

Lemma missing_fields_nil_inv (p : path) (schema doc : dict) :
  missing_fields p schema doc = [] ->
  forall k, In k (Dict.keys schema) -> In k (Dict.keys doc).
Proof.
  unfold missing_fields.
  induction schema as [|[k0 v0] schema IH]; simpl; intros H k Hk;
    [contradiction|].
  apply app_eq_nil in H. destruct H as [H1 H2].
  destruct Hk as [<-|Hk]; [|auto].
  destruct (Dict.contains k0 doc) eqn:E; [|discriminate H1].
  now apply contains_In.
Qed.

Section WithRegex.

Variable re_match : string -> string -> res bool.

Lemma option_entry_total (m : bool) (p : path) (v : value) :
  exists es,
    field_errors re_match
      (VDict [("type", VStr "option"); ("mandatory", VBool m)]) p v = Ok es.
Proof.
  destruct m, v as [|[|]| | | |]; eexists; reflexivity.
Qed.

(** A mandatory option has no error only for [True]. *)
Lemma mandatory_option_true (p : path) (v : value) :
  field_errors re_match
    (VDict [("type", VStr "option"); ("mandatory", VBool true)]) p v = Ok [] ->
  v = VBool true.
Proof.
  destruct v as [|[|]| | | |]; try discriminate. reflexivity.
Qed.

(** The errors of a mapping against a nested schema, when there are
    none: every item of the mapping passes the entry of its key, and no key
    of the schema is missing. *)
Lemma options_errors_nil (subentries : dict) (p : path) (d : dict) :
  options_errors re_match subentries p d = Ok [] ->
  (forall k v,
      In (k, v) d ->
      exists entry,
        Dict.get k subentries = Some entry
        /\ field_errors re_match entry (p ++ [PKey k]) v = Ok [])
  /\ (forall k, In k (Dict.keys subentries) -> In k (Dict.keys d)).
Proof.
  unfold options_errors, validate_mapping. intros H.
  apply bind_Ok in H. destruct H as [es [H1 H2]].
  injection H2 as H2. apply app_eq_nil in H2. destruct H2 as [-> H2].
  split.
  - intros k v Hin. rewrite collect_nil in H1.
    specialize (H1 (k, v) Hin). simpl in H1.
    rewrite get_with_get in H1.
    destruct (Dict.get k subentries) as [entry|]; simpl in H1;
      [|discriminate H1].
    exists entry. split; [reflexivity | exact H1].
  - now apply missing_fields_nil_inv with (p := p).
Qed.

Lemma radio_entry_errors (subentries : dict) (p : path) (v : value) :
  field_errors re_match
    (VDict [("type", VStr "radio"); ("schema", VDict subentries)]) p v
  = Ok [] ->
  exists d,
    v = VDict d
    /\ forallb is_bool (Dict.values d) = true
    /\ selected d = 1
    /\ options_errors re_match subentries p d = Ok [].
Proof.
  intros H.
  destruct v as [| | | | |d]; try discriminate H.
  destruct (_validate_type_radio (VDict d)) as [[|]|e] eqn:E.
  - apply radio_type_true in E. destruct E as [d' [[= <-] [Hb H1]]].
    exists d. repeat split; try assumption.
    now rewrite <- (SubmissionFields.radio_entry_one re_match) by assumption.
  - unfold field_errors in H.
    cbn -[_validate_type_radio validate_mapping] in H.
    rewrite E in H. discriminate H.
  - unfold field_errors in H.
    cbn -[_validate_type_radio validate_mapping] in H.
    rewrite E in H. discriminate H.
Qed.

(** A mapping against a schema raises nothing when no entry of the schema
    does. *)
Lemma mapping_total (schema : dict) (p : path) (doc : dict) :
  (forall k entry,
      Dict.get k schema = Some entry ->
      forall q v, exists es, field_errors re_match entry q v = Ok es) ->
  exists es, options_errors re_match schema p doc = Ok es.
Proof.
  intros H. unfold options_errors, validate_mapping.
  destruct (collect_total
              (fun item : string * value =>
                 match get_with (validate_definitions re_match class)
                         (fst item) schema with
                 | Some check => check (p ++ [PKey (fst item)]) (snd item)
                 | None => Ok [(p ++ [PKey (fst item)], UnknownField)]
                 end) doc) as [es ->].
  - intros [k v] _. simpl. rewrite get_with_get.
    destruct (Dict.get k schema) as [entry|] eqn:E; simpl; [|eauto].
    apply (H k entry E).
  - simpl. eauto.
Qed.

Lemma email_entry_total (r : string) (p : path) (v : value) :
  (forall s, exists b,
      re_match (if ends_with_dollar r then r else (r ++ "$")%string) s
      = Ok b) ->
  exists es,
    field_errors re_match (VDict [("type", VStr "email"); ("regex", VStr r)])
      p v = Ok es.
Proof.
  intros H. destruct v; try (eexists; reflexivity).
  unfold field_errors. cbn. destruct (H s) as [b ->]. simpl. eauto.
Qed.

Lemma radio_entry_total (subentries : dict) (p : path) (v : value) :
  (forall k entry,
      Dict.get k subentries = Some entry ->
      exists m, entry = VDict [("type", VStr "option");
                               ("mandatory", VBool m)]) ->
  exists es,
    field_errors re_match
      (VDict [("type", VStr "radio"); ("schema", VDict subentries)]) p v
    = Ok es.
Proof.
  intros H. destruct v as [| | | | |d]; try (eexists; reflexivity).
  unfold field_errors. cbn -[_validate_type_radio validate_mapping].
  destruct (radio_type_total (VDict d)) as [[|] ->]; simpl; [|eauto].
  destruct (mapping_total subentries p d) as [es Hes].
  { intros k entry Hget q x. destruct (H k entry Hget) as [m ->].
    apply option_entry_total. }
  unfold options_errors in Hes. rewrite Hes. simpl. eauto.
Qed.

End WithRegex.

(** The entries the compiler makes of a list of accepted options. *)
Lemma option_entries (fields : list value) (es : dict) :
  Forall (fun f => ConfigurationValidator._validate_type_option f = Ok true)
    fields ->
  enumerate _generate_field_schema (VList fields) = Ok es ->
  forall k entry,
    Dict.get k es = Some entry ->
    exists m, entry = VDict [("type", VStr "option"); ("mandatory", VBool m)].
Proof.
  intros Hall He k entry Hget. simpl in He.
  apply CompilerFacts.enumerate_from_spec in He; [|auto].
  destruct He as [es' [-> [_ Hall2]]]. simpl in Hget.
  apply get_In in Hget.
  destruct (Forall2_In_r _ _ _ _ Hall2 Hget) as [x [Hx Hc]].
  rewrite Forall_forall in Hall. specialize (Hall x Hx).
  apply TypeChecks.option_accepted in Hall.
  destruct Hall as [t [d [m [-> _]]]].
  simpl in Hc. injection Hc as <-. eauto.
Qed.

End SubmissionFacts.

(** ** Answers to the options of a Radio or Selection field *)

Module OptionAnswers.

Import SubmissionValidator.

Section WithRegex.

Variable re_match : string -> string -> res bool.

(** The nested schema compiled from accepted options has distinct keys. *)
Lemma option_keys_distinct (fields : list value) (sub : dict) :
  enumerate _generate_field_schema (VList fields) = Ok sub ->
  NoDup (Dict.keys sub).
Proof.
  intros He. simpl in He.
  apply CompilerFacts.enumerate_from_spec in He; [|auto].
  destruct He as [es [-> [Hk _]]]. simpl. rewrite Hk.
  apply CompilerFacts.positions_distinct.
Qed.

(** A mapping to booleans against the nested schema of accepted options:
    the check raises nothing, and it finds no error exactly when the
    mapping answers every option. *)
Lemma options_errors_exact (fields : list value) (sub : dict) (p : path)
  (d : dict) :
  Forall (fun f => ConfigurationValidator._validate_type_option f = Ok true)
    fields ->
  enumerate _generate_field_schema (VList fields) = Ok sub ->
  forallb is_bool (Dict.values d) = true ->
  (exists es, options_errors re_match sub p d = Ok es)
  /\ (options_errors re_match sub p d = Ok [] <-> answers_every_option sub d).
Proof.
  intros Hall He Hb.
  pose proof (SubmissionFacts.option_entries fields sub Hall He) as Hopt.
  pose proof (option_keys_distinct fields sub He) as Hnd.
  split.
  { apply SubmissionFacts.mapping_total. intros k entry Hget q v.
    destruct (Hopt k entry Hget) as [m ->].
    apply SubmissionFacts.option_entry_total. }
  split.
  - intros Hnil. apply SubmissionFacts.options_errors_nil in Hnil.
    destruct Hnil as [Hitems Hmissing]. split.
    + intros k. split; [|apply Hmissing].
      intros Hin. unfold Dict.keys in Hin. apply in_map_iff in Hin.
      destruct Hin as [[k' x] [Hk' Hin]]. simpl in Hk'. subst k'.
      destruct (Hitems k x Hin) as [entry [Hget _]].
      apply get_In in Hget. apply (in_map fst) in Hget. exact Hget.
    + intros k x Hin Hm.
      destruct (Hitems k x Hin) as [entry [Hget Hok]].
      rewrite (In_get _ _ _ Hnd Hm) in Hget. injection Hget as <-.
      now apply SubmissionFacts.mandatory_option_true in Hok.
  - intros [Hkeys Hitems].
    unfold options_errors, validate_mapping.
    assert (Hcollect :
             collect
               (fun item : string * value =>
                  match get_with (validate_definitions re_match class)
                          (fst item) sub with
                  | Some check => check (p ++ [PKey (fst item)]) (snd item)
                  | None => Ok [(p ++ [PKey (fst item)], UnknownField)]
                  end) d = Ok []).
    { apply collect_nil. intros [k x] Hin. simpl.
      assert (Hx : is_bool x = true).
      { rewrite forallb_forall in Hb. apply Hb. unfold Dict.values.
        apply (in_map snd) in Hin. exact Hin. }
      destruct x as [|b| | | |]; try discriminate Hx.
      assert (Hk : In k (Dict.keys sub)).
      { apply Hkeys. apply (in_map fst) in Hin. exact Hin. }
      rewrite get_with_get.
      destruct (Dict.get k sub) as [entry|] eqn:Hget;
        [|apply get_None in Hget; contradiction].
      destruct (Hopt k entry Hget) as [m ->].
      destruct m.
      - rewrite (Hitems k (VBool b) Hin (get_In _ _ _ Hget)). reflexivity.
      - destruct b; reflexivity. }
    rewrite Hcollect. simpl. f_equal.
    apply missing_fields_none. intros e Hin.
    apply contains_In. apply Hkeys. apply (in_map fst) in Hin. exact Hin.
Qed.

End WithRegex.

End OptionAnswers.

(** * The claims of the specification *)

(** C1, as the code has it: in a configuration [validate_configuration]
    accepts, every item of [fields] is a field of kind Email, Option or
    Radio that passes the check of its kind, and every subfield of a Radio
    is a field of kind Option; so a field of kind Text or Selection is
    accepted neither at the top level nor inside a Radio. *)
Theorem only_email_option_radio
  (isregex : value -> bool) (re_match : string -> string -> res bool)
  (c : value) :
  ConfigurationValidator.validate_configuration isregex re_match c = Ok true ->
  exists fields,
    getitem c "fields" = Ok (VList fields)
    /\ Forall
         (fun f =>
            (exists k, getitem f "type" = Ok (VStr (kind_name k))
                       /\ structural_check isregex k f = Ok true)
            /\ (forall subfields,
                   getitem f "fields" = Ok (VList subfields) ->
                   Forall
                     (fun g =>
                        getitem g "type" = Ok (VStr (kind_name Option))
                        /\ structural_check isregex Option g = Ok true)
                     subfields))
         fields.
Proof.
  intros H.
  destruct (Compiler.accepted_fields isregex re_match c H)
    as [d [fields [-> [Hget Hall]]]].
  exists fields. split.
  - simpl. unfold Dict.getitem. now rewrite Hget.
  - eapply Forall_impl; [|exact Hall].
    intros f [Hf|[Hf|Hf]].
    + pose proof Hf as Hf'. apply TypeChecks.email_accepted in Hf'.
      destruct Hf' as [t [de [r [h [-> _]]]]]. split.
      * exists Email. split; [reflexivity | exact Hf].
      * intros subfields Hs. discriminate Hs.
    + pose proof Hf as Hf'. apply TypeChecks.option_accepted in Hf'.
      destruct Hf' as [t [de [m [-> _]]]]. split.
      * exists Option. split; [reflexivity | exact Hf].
      * intros subfields Hs. discriminate Hs.
    + pose proof Hf as Hf'. apply TypeChecks.radio_accepted in Hf'.
      destruct Hf' as [t [de [fs [-> [_ [_ Hopts]]]]]]. split.
      * exists Radio. split; [reflexivity | exact Hf].
      * intros subfields Hs. cbn in Hs. injection Hs as <-.
        eapply Forall_impl; [|exact Hopts].
        intros g Hg. split; [|exact Hg].
        apply TypeChecks.option_accepted in Hg.
        destruct Hg as [t' [de' [m [-> _]]]]. reflexivity.
Qed.

Lemma only_email_option_radio_example :
  exists fields,
    getitem
      (configuration "admin" "survey" "title" "" 0 1 0
         [email_field "Mail" "" "a+" "hint"; option_field "Agree" "" true;
          radio_field "Pick" "" [option_field "A" "" false;
                                 option_field "B" "" false]])
      "fields" = Ok (VList fields)
    /\ Forall
         (fun f =>
            (exists k, getitem f "type" = Ok (VStr (kind_name k))
                       /\ structural_check literal_isregex k f = Ok true)
            /\ (forall subfields,
                   getitem f "fields" = Ok (VList subfields) ->
                   Forall
                     (fun g =>
                        getitem g "type" = Ok (VStr (kind_name Option))
                        /\ structural_check literal_isregex Option g
                           = Ok true)
                     subfields))
         fields.
Proof.
  apply (only_email_option_radio literal_isregex literal_match).
  reflexivity.
Defined.

(** C1, as the specification states it, fails: a Text field and a Selection
    field nested inside a Radio field's [fields] list are rejected, and so
    is the configuration that holds the Radio. *)
Lemma text_inside_radio_rejected :
  let text := text_field "Comment" "" 0 10 in
  let selection := selection_field "Pick" "" 0 1 [option_field "A" "" false] in
  ConfigurationValidator._validate_type_radio (radio_field "R" "" [text])
  = Ok false
  /\ ConfigurationValidator._validate_type_radio
       (radio_field "R" "" [selection]) = Ok false
  /\ ConfigurationValidator.validate_configuration literal_isregex
       literal_match
       (configuration "admin" "survey" "title" "" 0 1 0
          [radio_field "R" "" [text]]) = Ok false
  /\ ConfigurationValidator.validate_configuration literal_isregex
       literal_match
       (configuration "admin" "survey" "title" "" 0 1 0
          [radio_field "R" "" [selection]]) = Ok false.
Proof.
  repeat split; reflexivity.
Qed.

(** C2: for a configuration [validate_configuration] accepts, the compiler
    returns a schema, it raises nothing; the schema has one entry per field,
    in the order of the fields, the field at position [i] (from 0) under
    the key [str(i+1)], and so has the nested schema of a field with
    subfields; each entry carries the field's [type] and those of
    [min_chars], [max_chars], [min_select], [max_select], [mandatory] and
    [regex] that the field has, with their values, and no other key but the
    nested [schema]: [title], [description] and [hint] are dropped. *)
Theorem compile_total_on_valid
  (isregex : value -> bool) (re_match : string -> string -> res bool)
  (c : value) :
  ConfigurationValidator.validate_configuration isregex re_match c = Ok true ->
  exists fields schema,
    getitem c "fields" = Ok (VList fields)
    /\ SubmissionValidator._generate_schema c = Ok (VDict schema)
    /\ mirrors_from 0 fields schema
    /\ List.length schema = List.length fields
    /\ (forall key entry,
           In (key, VDict entry) schema ->
           Dict.get "title" entry = None
           /\ Dict.get "description" entry = None
           /\ Dict.get "hint" entry = None).
Proof.
  intros H.
  destruct (Compiler.accepted_fields isregex re_match c H)
    as [d [fields [-> [Hget Hall]]]].
  rewrite Forall_forall in Hall.
  destruct (Compiler.enumerate_list fields) as [schema [H1 H2]].
  { intros f Hf. apply (Compiler.compile_accepted isregex). auto. }
  exists fields, schema.
  assert (Hg : getitem (VDict d) "fields" = Ok (VList fields)).
  { simpl. unfold Dict.getitem. now rewrite Hget. }
  split; [exact Hg|]. split.
  { unfold SubmissionValidator._generate_schema. rewrite Hg. simpl.
    simpl in H1. now rewrite H1. }
  split; [exact H2|]. clear H1 Hall Hg Hget H. split.
  - induction H2; simpl; auto.
  - intros key entry Hin.
    induction H2 as [|i f e fs es Hc Hm IH]; [contradiction|].
    destruct Hin as [Hin|Hin]; [|auto].
    injection Hin as _ ->.
    assert (Hcar : exists items, carries items entry).
    { inversion Hc; eauto. }
    destruct Hcar as [items [_ [_ Hk]]].
    repeat split; apply get_None; intros Hkey; apply Hk in Hkey;
      cbn in Hkey; intuition discriminate.
Qed.

Lemma compile_total_on_valid_example :
  exists fields schema,
    getitem
      (configuration "admin" "survey" "title" "" 0 1 0
         [radio_field "T" "D" [option_field "A" "" false;
                               option_field "B" "" false];
          email_field "Mail" "" "a+" "hint"])
      "fields" = Ok (VList fields)
    /\ SubmissionValidator._generate_schema
         (configuration "admin" "survey" "title" "" 0 1 0
            [radio_field "T" "D" [option_field "A" "" false;
                                  option_field "B" "" false];
             email_field "Mail" "" "a+" "hint"])
       = Ok (VDict schema)
    /\ mirrors_from 0 fields schema
    /\ List.length schema = List.length fields
    /\ (forall key entry,
           In (key, VDict entry) schema ->
           Dict.get "title" entry = None
           /\ Dict.get "description" entry = None
           /\ Dict.get "hint" entry = None).
Proof.
  apply (compile_total_on_valid literal_isregex literal_match).
  reflexivity.
Defined.

(** C3, as the code has it: the structural check of a kind accepts a dict
    only if the list of its keys is the kind's list of required keys, in
    that order; a dict with an extra key, a missing key or the required
    keys in another order is rejected.  The rejection has the reason of a
    structural mismatch: a field that declares the kind in its [type] and
    has another list of keys fails the [type] rule of the items of
    [fields], its one error being Cerberus's bad-type error at the path of
    the field, and so does a Radio with such an Option among its
    subfields, at the path of the Radio.  A field with the required keys
    in the required order and values within the kind's bounds is
    accepted. *)
Theorem key_list_enforced_in_order (isregex : value -> bool)
  (re_match : string -> string -> res bool) (k : kind) (d : dict)
  (p : path) :
  (structural_check isregex k (VDict d) = Ok true ->
   Dict.keys d = required_keys k)
  /\ (Dict.keys d <> required_keys k ->
      structural_check isregex k (VDict d) = Ok false)
  /\ (Dict.get "type" d = Some (VStr (kind_name k)) ->
      Dict.keys d <> required_keys k ->
      check_entry isregex re_match item_definitions p (VDict d)
      = Ok [(p, BadType)])
  /\ (forall t de fields,
         In (VDict d) fields ->
         Dict.keys d <> required_keys Option ->
         check_entry isregex re_match item_definitions p
           (radio_field t de fields)
         = Ok [(p, BadType)])
  /\ (forall t de m,
         String.length t <= ConfigurationValidator.TITLE_MAX_LENGTH ->
         String.length de <= ConfigurationValidator.DESCRIPTION_MAX_LENGTH ->
         structural_check isregex Option (option_field t de m) = Ok true)
  /\ (forall t de fields,
         String.length t <= ConfigurationValidator.TITLE_MAX_LENGTH ->
         String.length de <= ConfigurationValidator.DESCRIPTION_MAX_LENGTH ->
         Forall (fun f => structural_check isregex Option f = Ok true)
           fields ->
         structural_check isregex Radio (radio_field t de fields) = Ok true)
  /\ (forall t de r h,
         String.length t <= ConfigurationValidator.TITLE_MAX_LENGTH ->
         String.length de <= ConfigurationValidator.DESCRIPTION_MAX_LENGTH ->
         String.length r <= ConfigurationValidator.REGEX_MAX_LENGTH ->
         isregex (VStr r) = true ->
         String.length h <= ConfigurationValidator.HINT_MAX_LENGTH ->
         structural_check isregex Email (email_field t de r h) = Ok true).
Proof.
  assert (Hshape : forall k' d',
             structural_check isregex k' (VDict d') = Ok true ->
             Dict.keys d' = required_keys k'
             /\ Dict.get "type" d' = Some (VStr (kind_name k'))).
  { intros k' d'. destruct k'; simpl; intros H.
    - apply TypeChecks.email_accepted in H.
      destruct H as [t [de [r [h [[= ->] _]]]]]. split; reflexivity.
    - apply TypeChecks.option_accepted in H.
      destruct H as [t [de [m [[= ->] _]]]]. split; reflexivity.
    - apply TypeChecks.radio_accepted in H.
      destruct H as [t [de [fs [[= ->] _]]]]. split; reflexivity. }
  split; [intros H; apply (Hshape k d H)|]. split.
  { intros Hne.
    assert (Htot : exists b, structural_check isregex k (VDict d) = Ok b).
    { destruct k; simpl;
        [apply TypeChecks.email_total | apply TypeChecks.option_total
        | apply TypeChecks.radio_total]. }
    destruct Htot as [[|] Hb]; [|exact Hb].
    exfalso. apply Hne. now apply (Hshape k d). }
  split.
  { intros Ht Hne.
    apply ConfigurationCerberus.item_check_rejected; [discriminate|].
    assert (Hno : forall k',
               structural_check isregex k' (VDict d) = Ok true -> False).
    { intros k' H. destruct (Hshape k' d H) as [Hk Ht'].
      rewrite Ht in Ht'. injection Ht' as Ht'.
      destruct k, k'; try discriminate Ht'; now apply Hne. }
    intros [H|[H|H]];
      [apply (Hno Email) | apply (Hno Option) | apply (Hno Radio)]; exact H. }
  split.
  { intros t de fields Hin Hne.
    apply ConfigurationCerberus.item_check_rejected; [discriminate|].
    intros [H|[H|H]].
    - apply TypeChecks.email_accepted in H.
      destruct H as [t' [de' [r [h [E _]]]]]. discriminate E.
    - apply TypeChecks.option_accepted in H.
      destruct H as [t' [de' [m [E _]]]]. discriminate E.
    - apply TypeChecks.radio_accepted in H.
      destruct H as [t' [de' [fs [E [_ [_ Hall]]]]]].
      injection E as _ _ <-. rewrite Forall_forall in Hall.
      apply Hne. apply (Hshape Option d). simpl. now apply Hall. }
  repeat split; simpl; intros.
  - apply TypeChecks.option_accepted. eauto 10.
  - apply TypeChecks.radio_accepted. eauto 10.
  - apply TypeChecks.email_accepted. eauto 15.
Qed.

Lemma key_list_enforced_example :
  let extra := [("type", VStr "option"); ("title", VStr "A");
                ("description", VStr ""); ("mandatory", VBool false);
                ("hint", VStr "extra")] in
  let missing := [("type", VStr "option"); ("title", VStr "A");
                  ("description", VStr "")] in
  structural_check literal_isregex Option (VDict extra) = Ok false
  /\ check_entry literal_isregex literal_match item_definitions
       [PKey "fields"; PIdx 0] (VDict extra)
     = Ok [([PKey "fields"; PIdx 0], BadType)]
  /\ structural_check literal_isregex Option (VDict missing) = Ok false
  /\ check_entry literal_isregex literal_match item_definitions
       [PKey "fields"; PIdx 0] (VDict missing)
     = Ok [([PKey "fields"; PIdx 0], BadType)]
  /\ check_entry literal_isregex literal_match item_definitions
       [PKey "fields"; PIdx 0] (radio_field "R" "" [VDict missing])
     = Ok [([PKey "fields"; PIdx 0], BadType)]
  /\ structural_check literal_isregex Option (option_field "A" "" false)
     = Ok true.
Proof.
  cbv zeta.
  destruct (key_list_enforced_in_order literal_isregex literal_match Option
              [("type", VStr "option"); ("title", VStr "A");
               ("description", VStr ""); ("mandatory", VBool false);
               ("hint", VStr "extra")] [PKey "fields"; PIdx 0])
    as [_ [Hextra [Hextra' _]]].
  destruct (key_list_enforced_in_order literal_isregex literal_match Option
              [("type", VStr "option"); ("title", VStr "A");
               ("description", VStr "")] [PKey "fields"; PIdx 0])
    as [_ [Hmissing [Hmissing' [Hradio [Haccept _]]]]].
  split; [apply Hextra; discriminate|].
  split; [apply Hextra'; [reflexivity | discriminate]|].
  split; [apply Hmissing; discriminate|].
  split; [apply Hmissing'; [reflexivity | discriminate]|].
  split; [apply Hradio; [left; reflexivity | discriminate]|].
  apply Haccept;
    unfold ConfigurationValidator.TITLE_MAX_LENGTH,
      ConfigurationValidator.DESCRIPTION_MAX_LENGTH; simpl; lia.
Defined.

(** C3, as the specification states it, fails: an Option field with the
    four required keys and values within bounds is rejected once [title]
    stands before [type], though the same entries in the required order are
    accepted. *)
Lemma key_order_matters :
  let ordered := [("type", VStr "option"); ("title", VStr "A");
                  ("description", VStr ""); ("mandatory", VBool false)] in
  let reordered := [("title", VStr "A"); ("type", VStr "option");
                    ("description", VStr ""); ("mandatory", VBool false)] in
  Permutation reordered ordered
  /\ ConfigurationValidator._validate_type_option (VDict ordered) = Ok true
  /\ ConfigurationValidator._validate_type_option (VDict reordered)
     = Ok false.
Proof.
  split; [apply perm_swap | split; reflexivity].
Qed.

(** C4, as the code has it: for a Radio field whose subfields are accepted
    options and compile to the nested schema [sub], the compiled entry is
    [{'type': 'radio', 'schema': sub}], without [min_select] or
    [max_select]; for a submitted mapping to booleans the Radio type check
    holds exactly when one entry is [True], whatever the number of entries.
    When none or several are [True] the field is rejected, whatever other
    rules its entry has, and its one error is that of the failed [type]
    rule: the code has no error of its own for the cardinality.  When
    exactly one is [True] the field has no error exactly when the mapping
    answers every option: it has the keys of [sub] and no other, and
    [True] under every mandatory option.  The check raises nothing. *)
Theorem radio_cardinality
  (re_match : string -> string -> res bool) (t de : string)
  (fields : list value) (sub : dict) (p : path) (d : dict) :
  Forall (fun f => ConfigurationValidator._validate_type_option f = Ok true)
    fields ->
  SubmissionValidator.enumerate SubmissionValidator._generate_field_schema
    (VList fields) = Ok sub ->
  forallb is_bool (Dict.values d) = true ->
  SubmissionValidator._generate_field_schema (radio_field t de fields)
  = Ok (VDict [("type", VStr "radio"); ("schema", VDict sub)])
  /\ SubmissionValidator._validate_type_radio (VDict d)
     = Ok (Nat.eqb (selected d) 1)
  /\ (selected d <> 1 ->
      forall rules,
        Dict.get "type" rules = Some (VStr "radio") ->
        SubmissionValidator.field_errors re_match (VDict rules) p (VDict d)
        = Ok [(p, BadType)])
  /\ (selected d = 1 ->
      (SubmissionValidator.field_errors re_match
         (VDict [("type", VStr "radio"); ("schema", VDict sub)]) p (VDict d)
       = Ok []
       <-> answers_every_option sub d))
  /\ (exists es,
         SubmissionValidator.field_errors re_match
           (VDict [("type", VStr "radio"); ("schema", VDict sub)]) p
           (VDict d)
         = Ok es).
Proof.
  intros Hall Hsub Hb. split.
  { rewrite Compiler.generate_radio, Hsub. reflexivity. }
  split; [now apply Selections.radio_check_bools|]. split; [|split].
  - intros Hn rules Ht.
    now apply SubmissionFields.radio_entry_rejects.
  - intros H1.
    rewrite SubmissionFields.radio_entry_one by assumption.
    apply (OptionAnswers.options_errors_exact re_match fields); assumption.
  - apply SubmissionFacts.radio_entry_total.
    now apply (SubmissionFacts.option_entries fields).
Qed.

Lemma radio_cardinality_example :
  let entry := VDict [("type", VStr "radio");
                      ("schema", VDict [("1", option_entry true);
                                        ("2", option_entry false)])] in
  SubmissionValidator._generate_field_schema
    (radio_field "T" "D" [option_field "A" "" true; option_field "B" "" false])
  = Ok entry
  /\ SubmissionValidator.field_errors literal_match entry [PKey "1"]
       (VDict [("1", VBool true); ("2", VBool false)]) = Ok []
  /\ SubmissionValidator.field_errors literal_match entry [PKey "1"]
       (VDict [("1", VBool true); ("2", VBool true)])
     = Ok [([PKey "1"], BadType)]
  /\ SubmissionValidator.field_errors literal_match entry [PKey "1"]
       (VDict [("1", VBool false); ("2", VBool false)])
     = Ok [([PKey "1"], BadType)].
Proof.
  cbv zeta.
  assert (Hall : Forall
                   (fun f =>
                      ConfigurationValidator._validate_type_option f = Ok true)
                   [option_field "A" "" true; option_field "B" "" false]).
  { repeat constructor. }
  destruct (radio_cardinality literal_match "T" "D"
              [option_field "A" "" true; option_field "B" "" false]
              [("1", option_entry true); ("2", option_entry false)]
              [PKey "1"] [("1", VBool true); ("2", VBool false)]
              Hall eq_refl eq_refl) as [Hentry [_ [_ [Hone _]]]].
  destruct (radio_cardinality literal_match "T" "D"
              [option_field "A" "" true; option_field "B" "" false]
              [("1", option_entry true); ("2", option_entry false)]
              [PKey "1"] [("1", VBool true); ("2", VBool true)]
              Hall eq_refl eq_refl) as [_ [_ [Hboth _]]].
  destruct (radio_cardinality literal_match "T" "D"
              [option_field "A" "" true; option_field "B" "" false]
              [("1", option_entry true); ("2", option_entry false)]
              [PKey "1"] [("1", VBool false); ("2", VBool false)]
              Hall eq_refl eq_refl) as [_ [_ [Hnone _]]].
  split; [exact Hentry|]. split.
  { apply Hone; [reflexivity|]. split.
    - intros k. simpl. tauto.
    - intros k x Hin Hm. simpl in Hin, Hm.
      destruct Hm as [Hm|[Hm|[]]]; [|discriminate Hm].
      injection Hm as <-.
      destruct Hin as [Hin|[Hin|[]]];
        [now injection Hin as <- | discriminate Hin]. }
  split.
  - apply Hboth; [discriminate | reflexivity].
  - apply Hnone; [discriminate | reflexivity].
Defined.

(** C4, as the specification states it, fails.  A Radio of two options,
    the first of them mandatory, is an accepted configuration; the
    submission that selects the second option only has exactly one [True]
    and is rejected, for the mandatory option.  And the rejection of a
    submission with two [True] has no reason of its own: it is the error
    that a value which is no mapping at all gets. *)
Lemma one_selected_yet_rejected :
  let c := configuration "admin" "survey" "title" "" 0 1 0
             [radio_field "Pick" "" [option_field "A" "" true;
                                     option_field "B" "" false]] in
  ConfigurationValidator.validate_configuration literal_isregex literal_match
    c = Ok true
  /\ selected [("1", VBool false); ("2", VBool true)] = 1
  /\ SubmissionValidator.submission_errors literal_match c
       (VDict [("1", VDict [("1", VBool false); ("2", VBool true)])])
     = Ok [([PKey "1"; PKey "1"], Custom "this field is mandatory")]
  /\ SubmissionValidator.validate_submission literal_match c
       (VDict [("1", VDict [("1", VBool false); ("2", VBool true)])])
     = Ok false
  /\ SubmissionValidator.submission_errors literal_match c
       (VDict [("1", VDict [("1", VBool true); ("2", VBool true)])])
     = Ok [([PKey "1"], BadType)]
  /\ SubmissionValidator.submission_errors literal_match c
       (VDict [("1", VInt 3)])
     = Ok [([PKey "1"], BadType)].
Proof.
  repeat split; reflexivity.
Qed.

(** The end-to-end scenario of the specification: with a Radio of two
    options, the submission that selects one is accepted and the one that
    selects both is rejected at path [1]. *)
Example radio_scenario :
  let c := configuration "admin" "survey" "title" "" 0 1 0
             [radio_field "T" "D" [option_field "A" "" false;
                                   option_field "B" "" false]] in
  ConfigurationValidator.validate_configuration literal_isregex literal_match
    c = Ok true
  /\ SubmissionValidator.submission_errors literal_match c
       (VDict [("1", VDict [("1", VBool true); ("2", VBool false)])])
     = Ok []
  /\ SubmissionValidator.submission_errors literal_match c
       (VDict [("1", VDict [("1", VBool true); ("2", VBool true)])])
     = Ok [([PKey "1"], BadType)]
  /\ SubmissionValidator.submission_errors literal_match c
       (VDict [("1", VDict [("1", VBool false); ("2", VBool false)])])
     = Ok [([PKey "1"], BadType)].
Proof.
  repeat split; reflexivity.
Qed.

(** C5, as the code has it: for a Selection field with bounds [min_select]
    and [max_select] whose subfields are accepted options and compile to
    the nested schema [sub], the compiled entry carries the two bounds, and
    for a submitted mapping to booleans the two rules [min_select] and
    [max_select] report nothing exactly when the number of [True] entries
    lies within the bounds; the field as a whole has no error exactly when
    the number lies within the bounds and the mapping answers every
    option: it has the keys of [sub] and no other, and [True] under every
    mandatory option.  The check raises nothing.  With bounds 1 and 2 over
    three options that are not mandatory, the submission is accepted
    exactly when one or two are selected. *)
Theorem selection_bounds
  (re_match : string -> string -> res bool) (t de : string) (lo hi : Z)
  (fields : list value) (sub : dict) (p : path) (d : dict) :
  Forall (fun f => ConfigurationValidator._validate_type_option f = Ok true)
    fields ->
  SubmissionValidator.enumerate SubmissionValidator._generate_field_schema
    (VList fields) = Ok sub ->
  forallb is_bool (Dict.values d) = true ->
  SubmissionValidator._generate_field_schema
    (selection_field t de lo hi fields)
  = Ok (VDict [("type", VStr "selection"); ("schema", VDict sub);
               ("min_select", VInt lo); ("max_select", VInt hi)])
  /\ (SubmissionValidator._validate_min_select (VInt lo) (VDict d) = Ok []
      /\ SubmissionValidator._validate_max_select (VInt hi) (VDict d) = Ok []
      <-> (lo <= Z.of_nat (selected d) <= hi)%Z)
  /\ (SubmissionValidator.field_errors re_match
        (VDict [("type", VStr "selection"); ("schema", VDict sub);
                ("min_select", VInt lo); ("max_select", VInt hi)]) p
        (VDict d) = Ok []
      <-> (lo <= Z.of_nat (selected d) <= hi)%Z
          /\ answers_every_option sub d)
  /\ (exists es,
         SubmissionValidator.field_errors re_match
           (VDict [("type", VStr "selection"); ("schema", VDict sub);
                   ("min_select", VInt lo); ("max_select", VInt hi)]) p
           (VDict d) = Ok es)
  /\ (forall t1 t2 t3 b1 b2 b3,
         SubmissionValidator.validate_submission re_match
           (configuration "admin" "survey" "title" "" 0 1 0
              [selection_field t de 1 2
                 [option_field t1 "" false; option_field t2 "" false;
                  option_field t3 "" false]])
           (VDict [("1", VDict [("1", VBool b1); ("2", VBool b2);
                                ("3", VBool b3)])])
         = Ok (let n := selected [("1", VBool b1); ("2", VBool b2);
                                  ("3", VBool b3)] in
               Nat.leb 1 n && Nat.leb n 2)).
Proof.
  intros Hall Hsub Hb.
  destruct (OptionAnswers.options_errors_exact re_match fields sub p d
              Hall Hsub Hb) as [[es Hes] Hiff].
  split.
  { rewrite SubmissionFields.generate_selection, Hsub. reflexivity. }
  split.
  { rewrite SubmissionFields.min_select_rule,
      SubmissionFields.max_select_rule by exact Hb.
    destruct (Z.ltb_spec (Z.of_nat (selected d)) lo),
      (Z.ltb_spec hi (Z.of_nat (selected d))); split;
      try (intros [H1 H2]; discriminate); try lia; auto. }
  split.
  { rewrite SubmissionFields.selection_entry_errors by exact Hb.
    rewrite Hes in *. simpl.
    destruct (Z.ltb_spec (Z.of_nat (selected d)) lo),
      (Z.ltb_spec hi (Z.of_nat (selected d))); split;
      try (intros [Hr Ha]; try lia; apply Hiff in Ha; injection Ha as ->;
           reflexivity);
      intros H1; injection H1 as H1;
      apply app_eq_nil in H1; destruct H1 as [-> H1];
      try discriminate H1; split; [lia | now apply Hiff]. }
  split.
  { rewrite SubmissionFields.selection_entry_errors by exact Hb.
    rewrite Hes. simpl. eauto. }
  intros t1 t2 t3 [|] [|] [|]; reflexivity.
Qed.

Lemma selection_bounds_example :
  let entry :=
    VDict [("type", VStr "selection");
           ("schema", VDict [("1", option_entry false);
                             ("2", option_entry false);
                             ("3", option_entry false)]);
           ("min_select", VInt 1); ("max_select", VInt 2)] in
  SubmissionValidator._generate_field_schema
    (selection_field "S" "" 1 2
       [option_field "A" "" false; option_field "B" "" false;
        option_field "C" "" false])
  = Ok entry
  /\ SubmissionValidator.field_errors literal_match entry [PKey "1"]
       (VDict [("1", VBool true); ("2", VBool false); ("3", VBool true)])
     = Ok []
  /\ SubmissionValidator.field_errors literal_match entry [PKey "1"]
       (VDict [("1", VBool false); ("2", VBool false); ("3", VBool false)])
     <> Ok []
  /\ SubmissionValidator.field_errors literal_match entry [PKey "1"]
       (VDict [("1", VBool true); ("2", VBool true); ("3", VBool true)])
     <> Ok [].
Proof.
  cbv zeta.
  assert (Hall : Forall
                   (fun f =>
                      ConfigurationValidator._validate_type_option f = Ok true)
                   [option_field "A" "" false; option_field "B" "" false;
                    option_field "C" "" false]).
  { repeat constructor. }
  destruct (selection_bounds literal_match "S" "" 1 2
              [option_field "A" "" false; option_field "B" "" false;
               option_field "C" "" false]
              [("1", option_entry false); ("2", option_entry false);
               ("3", option_entry false)]
              [PKey "1"]
              [("1", VBool true); ("2", VBool false); ("3", VBool true)]
              Hall eq_refl eq_refl) as [Hentry [_ [Htwo _]]].
  destruct (selection_bounds literal_match "S" "" 1 2
              [option_field "A" "" false; option_field "B" "" false;
               option_field "C" "" false]
              [("1", option_entry false); ("2", option_entry false);
               ("3", option_entry false)]
              [PKey "1"]
              [("1", VBool false); ("2", VBool false); ("3", VBool false)]
              Hall eq_refl eq_refl) as [_ [_ [Hnone _]]].
  destruct (selection_bounds literal_match "S" "" 1 2
              [option_field "A" "" false; option_field "B" "" false;
               option_field "C" "" false]
              [("1", option_entry false); ("2", option_entry false);
               ("3", option_entry false)]
              [PKey "1"]
              [("1", VBool true); ("2", VBool true); ("3", VBool true)]
              Hall eq_refl eq_refl) as [_ [_ [Hall3 _]]].
  split; [exact Hentry|]. split.
  { apply Htwo. split; [cbv; split; discriminate|]. split.
    - intros k. simpl. tauto.
    - intros k x Hin Hm. simpl in Hm.
      destruct Hm as [Hm|[Hm|[Hm|[]]]]; discriminate Hm. }
  split.
  - intros H. apply Hnone in H. destruct H as [[H _] _].
    apply H. reflexivity.
  - intros H. apply Hall3 in H. destruct H as [[_ H] _].
    apply H. reflexivity.
Defined.

(** C5, as the specification states it, fails: with bounds 1 and 2 over
    three options of which the first is mandatory, the submission that
    selects the second option only has one [True], within the bounds, and
    is rejected, for the mandatory option. *)
Lemma count_within_bounds_yet_rejected :
  let c := configuration "admin" "survey" "title" "" 0 1 0
             [selection_field "S" "" 1 2
                [option_field "A" "" true; option_field "B" "" false;
                 option_field "C" "" false]] in
  let d := [("1", VBool false); ("2", VBool true); ("3", VBool false)] in
  (1 <= Z.of_nat (selected d) <= 2)%Z
  /\ SubmissionValidator.submission_errors literal_match c
       (VDict [("1", VDict d)])
     = Ok [([PKey "1"; PKey "1"], Custom "this field is mandatory")]
  /\ SubmissionValidator.validate_submission literal_match c
       (VDict [("1", VDict d)])
     = Ok false.
Proof.
  cbv zeta. split; [cbv; split; discriminate|]. split; reflexivity.
Qed.

(** C6: a Text field with bounds [min_chars] and [max_chars] compiles to an
    entry that carries the two bounds, and a submitted string has no error
    against it exactly when its length lies within the bounds; a string
    that is too short gets the error that names [min_chars], one that is
    too long the error that names [max_chars], and the two messages differ.
    With bounds 2 and 5 the strings of length 0, 1 and 6 are rejected and
    those of length 2 and 5 are accepted. *)
Theorem text_length_bounds
  (re_match : string -> string -> res bool) (t de : string) (lo hi : Z)
  (p : path) (s : string) :
  let entry := VDict [("type", VStr "text"); ("min_chars", VInt lo);
                      ("max_chars", VInt hi)] in
  let too_short := ("must be at least " ++ str_of_Z lo
                    ++ " characters long")%string in
  let too_long := ("must be at most " ++ str_of_Z hi
                   ++ " characters long")%string in
  SubmissionValidator._generate_field_schema (text_field t de lo hi)
  = Ok entry
  /\ (SubmissionValidator.field_errors re_match entry p (VStr s) = Ok []
      <-> (lo <= Z.of_nat (String.length s) <= hi)%Z)
  /\ (exists es,
         SubmissionValidator.field_errors re_match entry p (VStr s) = Ok es
         /\ (In (p, Custom too_short) es
             <-> (Z.of_nat (String.length s) < lo)%Z)
         /\ (In (p, Custom too_long) es
             <-> (hi < Z.of_nat (String.length s))%Z))
  /\ too_short <> too_long
  /\ (forall x,
         SubmissionValidator.validate_submission re_match
           (configuration "admin" "survey" "title" "" 0 1 0
              [text_field t de 2 5])
           (VDict [("1", VStr x)])
         = Ok (Nat.leb 2 (String.length x) && Nat.leb (String.length x) 5)).
Proof.
  cbv zeta.
  assert (Hne : forall a b,
             ("must be at least " ++ a)%string
             <> ("must be at most " ++ b)%string).
  { intros a b H. simpl in H. discriminate H. }
  split; [reflexivity|]. split.
  { rewrite SubmissionFields.text_entry_errors.
    destruct (Z.ltb_spec (Z.of_nat (String.length s)) lo),
      (Z.ltb_spec hi (Z.of_nat (String.length s))); simpl; split;
      try discriminate; try lia; reflexivity. }
  split.
  { eexists. split; [apply SubmissionFields.text_entry_errors|].
    destruct (Z.ltb_spec (Z.of_nat (String.length s)) lo),
      (Z.ltb_spec hi (Z.of_nat (String.length s))); simpl; split; split;
      try lia; try tauto;
      try (intros [H1|H1]; [injection H1 as H1|];
           try contradiction; try lia;
           try (exfalso; exact (Hne _ _ H1));
           try (exfalso; symmetry in H1; exact (Hne _ _ H1));
           try (destruct H1 as [H1|[]]; injection H1 as H1; exfalso;
                first [exact (Hne _ _ H1)
                      | symmetry in H1; exact (Hne _ _ H1)])). }
  split; [apply Hne|].
  intros x.
  unfold SubmissionValidator.validate_submission,
    SubmissionValidator.submission_errors.
  cbn -[Z.ltb Z.of_nat String.length Nat.leb].
  destruct (Z.ltb_spec (Z.of_nat (String.length x)) 2),
    (Z.ltb_spec 5 (Z.of_nat (String.length x))),
    (Nat.leb_spec 2 (String.length x)),
    (Nat.leb_spec (String.length x) 5); simpl; try reflexivity; lia.
Qed.

Lemma text_length_bounds_example :
  let c := configuration "admin" "survey" "title" "" 0 1 0
             [text_field "T" "" 2 5] in
  let submit x := SubmissionValidator.validate_submission literal_match c
                    (VDict [("1", VStr x)]) in
  submit "" = Ok false
  /\ submit "a" = Ok false
  /\ submit "abcdef" = Ok false
  /\ submit "ab" = Ok true
  /\ submit "abcde" = Ok true.
Proof.
  destruct (text_length_bounds literal_match "T" "" 2 5 [] "")
    as [_ [_ [_ [_ H]]]].
  repeat split; apply H.
Defined.

(** C7: a configuration whose [fields] list has an Email field (a dict of
    [type] 'email') with a [regex] that does not compile is rejected by
    [validate_configuration]: the call returns [False], it raises nothing;
    and an Email field whose regex compiles and whose strings are within
    their bounds passes the Email type check. *)
Theorem invalid_regex_rejected
  (isregex : value -> bool) (re_match : string -> string -> res bool)
  (d : dict) (fields : list value) (field : dict) (regex : string) :
  Dict.get "fields" d = Some (VList fields) ->
  In (VDict field) fields ->
  Dict.get "type" field = Some (VStr "email") ->
  Dict.get "regex" field = Some (VStr regex) ->
  isregex (VStr regex) = false ->
  ConfigurationValidator.validate_configuration isregex re_match (VDict d)
  = Ok false
  /\ (forall t de r h,
         String.length t <= ConfigurationValidator.TITLE_MAX_LENGTH ->
         String.length de <= ConfigurationValidator.DESCRIPTION_MAX_LENGTH ->
         String.length r <= ConfigurationValidator.REGEX_MAX_LENGTH ->
         isregex (VStr r) = true ->
         String.length h <= ConfigurationValidator.HINT_MAX_LENGTH ->
         ConfigurationValidator._validate_type_email isregex
           (email_field t de r h) = Ok true).
Proof.
  intros Hfields Hin Htype Hregex Hbad. split.
  - destruct (ConfigurationCerberus.validate_configuration_total
                isregex re_match d) as [[|] Hb]; [|exact Hb].
    exfalso.
    apply ConfigurationCerberus.validate_configuration_true in Hb.
    destruct Hb as [Hentries _].
    specialize (Hentries _ _ (get_In _ _ _ Hfields)).
    unfold entry_ok in Hentries. cbn in Hentries.
    destruct Hentries as [fs [[= <-] Hall]].
    rewrite Forall_forall in Hall. specialize (Hall _ Hin).
    destruct Hall as [H|[H|H]].
    + apply TypeChecks.email_accepted in H.
      destruct H as [t [de [r [h [[= ->] [_ [_ [_ [Hr _]]]]]]]]].
      cbn in Hregex. injection Hregex as ->. congruence.
    + apply TypeChecks.option_accepted in H.
      destruct H as [t [de [m [[= ->] _]]]]. discriminate Htype.
    + apply TypeChecks.radio_accepted in H.
      destruct H as [t [de [fs [[= ->] _]]]]. discriminate Htype.
  - intros. apply TypeChecks.email_accepted. eauto 15.
Qed.

Lemma invalid_regex_example :
  ConfigurationValidator.validate_configuration literal_isregex literal_match
    (configuration "admin" "survey" "title" "" 0 1 0
       [email_field "Mail" "" "(a" "hint"])
  = Ok false
  /\ (forall t de r h,
         String.length t <= ConfigurationValidator.TITLE_MAX_LENGTH ->
         String.length de <= ConfigurationValidator.DESCRIPTION_MAX_LENGTH ->
         String.length r <= ConfigurationValidator.REGEX_MAX_LENGTH ->
         literal_isregex (VStr r) = true ->
         String.length h <= ConfigurationValidator.HINT_MAX_LENGTH ->
         ConfigurationValidator._validate_type_email literal_isregex
           (email_field t de r h) = Ok true).
Proof.
  apply (invalid_regex_rejected literal_isregex literal_match _
           [email_field "Mail" "" "(a" "hint"]
           [("type", VStr "email"); ("title", VStr "Mail");
            ("description", VStr ""); ("regex", VStr "(a");
            ("hint", VStr "hint")] "(a").
  - reflexivity.
  - simpl. left. reflexivity.
  - reflexivity.
  - reflexivity.
  - reflexivity.
Defined.

(** C8: the [mandatory] rule with [mandatory=True] reports the mandatory
    error exactly when the value is the boolean [False] or the empty
    string, and nothing for any other value; with [mandatory=False] it
    reports nothing for any value.  Against the compiled entry of an Option
    field, a submitted boolean gets the mandatory error exactly when the
    option is mandatory and the boolean is [False]. *)
Theorem mandatory_rule
  (re_match : string -> string -> res bool) (p : path) (v : value) :
  (SubmissionValidator._validate_mandatory (VBool true) v
   = Ok ["this field is mandatory"]
   <-> v = VBool false \/ v = VStr "")
  /\ (SubmissionValidator._validate_mandatory (VBool true) v = Ok []
      <-> ~ (v = VBool false \/ v = VStr ""))
  /\ SubmissionValidator._validate_mandatory (VBool false) v = Ok []
  /\ (forall t de m b,
         SubmissionValidator._generate_field_schema (option_field t de m)
         = Ok (VDict [("type", VStr "option"); ("mandatory", VBool m)])
         /\ SubmissionValidator.field_errors re_match
              (VDict [("type", VStr "option"); ("mandatory", VBool m)]) p
              (VBool b)
            = Ok (if m && negb b
                  then [(p, Custom "this field is mandatory")] else [])).
Proof.
  split; [|split; [|split]].
  - destruct v as [|[|]|z|s|l|d]; simpl; split;
      try discriminate; try (intros [H|H]; discriminate); auto.
    + destruct s; simpl; [auto | discriminate].
    + intros [H|H]; [discriminate|]. injection H as ->. reflexivity.
  - destruct v as [|[|]|z|s|l|d]; simpl; split;
      try discriminate; try reflexivity;
      try (intros _ [H|H]; discriminate);
      try (intros H; exfalso; apply H; auto; fail).
    + destruct s; simpl; [discriminate|].
      intros _ [H|H]; discriminate.
    + destruct s; simpl; [|reflexivity].
      intros H. exfalso. apply H. auto.
  - reflexivity.
  - intros t de m b. split; [reflexivity|].
    apply SubmissionFields.option_entry_errors.
Qed.

Lemma mandatory_rule_example :
  let c := configuration "admin" "survey" "title" "" 0 1 0
             [option_field "Agree" "" true; option_field "News" "" false] in
  SubmissionValidator.submission_errors literal_match c
    (VDict [("1", VBool false); ("2", VBool false)])
  = Ok [([PKey "1"], Custom "this field is mandatory")]
  /\ SubmissionValidator.submission_errors literal_match c
       (VDict [("1", VBool true); ("2", VBool false)])
     = Ok []
  /\ SubmissionValidator._validate_mandatory (VBool true) (VStr "")
     = Ok ["this field is mandatory"].
Proof.
  split; [reflexivity|]. split; [reflexivity|].
  apply (mandatory_rule literal_match [] (VStr "")). right. reflexivity.
Defined.




(** C10: a Radio configuration field whose [fields] list is empty passes the
    Radio type check (the check of the subfields holds of the empty list),
    so Cerberus reports no error for it as an item of [fields], and it
    compiles to the entry [{'type': 'radio', 'schema': {}}]. *)
Theorem empty_radio_accepted_and_compiled
  (isregex : value -> bool) (re_match : string -> string -> res bool)
  (title description : string) (p : path) :
  String.length title <= ConfigurationValidator.TITLE_MAX_LENGTH ->
  String.length description <= ConfigurationValidator.DESCRIPTION_MAX_LENGTH ->
  ConfigurationValidator._validate_type_radio
    (radio_field title description []) = Ok true
  /\ check_entry isregex re_match item_definitions p
       (radio_field title description []) = Ok []
  /\ SubmissionValidator._generate_field_schema
       (radio_field title description [])
     = Ok (VDict [("type", VStr "radio"); ("schema", VDict [])]).
Proof.
  intros Ht Hd.
  assert (H : ConfigurationValidator._validate_type_radio
                (radio_field title description []) = Ok true).
  { apply TypeChecks.radio_accepted.
    exists title, description, []. auto. }
  split; [exact H|]. split; [|reflexivity].
  apply ConfigurationCerberus.item_check_nil.
  right. right. exact H.
Qed.

Lemma empty_radio_example :
  ConfigurationValidator._validate_type_radio (radio_field "T" "D" [])
  = Ok true
  /\ check_entry literal_isregex literal_match item_definitions
       [PKey "fields"; PIdx 0] (radio_field "T" "D" []) = Ok []
  /\ SubmissionValidator._generate_field_schema (radio_field "T" "D" [])
     = Ok (VDict [("type", VStr "radio"); ("schema", VDict [])]).
Proof.
  apply (empty_radio_accepted_and_compiled literal_isregex literal_match
           "T" "D" [PKey "fields"; PIdx 0]);
    unfold ConfigurationValidator.TITLE_MAX_LENGTH,
      ConfigurationValidator.DESCRIPTION_MAX_LENGTH; simpl; lia.
Defined.

(** * Further properties of the code *)

(** ** The type checks of the configuration validator *)

(** X1: [_validate_type_option] never raises: the test of the key list
    guards every lookup.  It accepts exactly the dicts with the keys
    [type], [title], [description], [mandatory] in this order whose [type]
    is 'option', whose title is a string of at most 100 and whose
    description is a string of at most 1000 characters (both bounds
    included), and whose [mandatory] is a boolean. *)
Theorem option_check_exact (v : value) :
  (ConfigurationValidator._validate_type_option v = Ok true
   \/ ConfigurationValidator._validate_type_option v = Ok false)
  /\ (ConfigurationValidator._validate_type_option v = Ok true <->
      exists t de m,
        v = VDict [("type", VStr "option"); ("title", VStr t);
                   ("description", VStr de); ("mandatory", VBool m)]
        /\ String.length t <= 100
        /\ String.length de <= 1000).
Proof.
  split.
  - destruct (TypeChecks.option_total v) as [[|] H]; auto.
  - apply TypeChecks.option_accepted.
Qed.

(** X2: [_validate_type_radio] of the configuration validator never raises,
    and it accepts exactly the dicts with the keys [type], [title],
    [description], [fields] in this order whose [type] is 'radio', whose
    title and description are strings within 100 and 1000 characters, and
    whose [fields] is a list of values that each pass the Option check. *)
Theorem radio_check_exact (v : value) :
  (ConfigurationValidator._validate_type_radio v = Ok true
   \/ ConfigurationValidator._validate_type_radio v = Ok false)
  /\ (ConfigurationValidator._validate_type_radio v = Ok true <->
      exists t de fields,
        v = VDict [("type", VStr "radio"); ("title", VStr t);
                   ("description", VStr de); ("fields", VList fields)]
        /\ String.length t <= 100
        /\ String.length de <= 1000
        /\ Forall
             (fun f => ConfigurationValidator._validate_type_option f
                       = Ok true) fields).
Proof.
  split.
  - destruct (TypeChecks.radio_total v) as [[|] H]; auto.
  - apply TypeChecks.radio_accepted.
Qed.

(** X3: [_validate_type_email] never raises, whatever [isregex] answers,
    and it accepts exactly the dicts with the keys [type], [title],
    [description], [regex], [hint] in this order whose [type] is 'email',
    whose title, description, regex and hint are strings within 100, 1000,
    100 and 100 characters, and whose regex [isregex] accepts. *)
Theorem email_check_exact (isregex : value -> bool) (v : value) :
  (ConfigurationValidator._validate_type_email isregex v = Ok true
   \/ ConfigurationValidator._validate_type_email isregex v = Ok false)
  /\ (ConfigurationValidator._validate_type_email isregex v = Ok true <->
      exists t de r h,
        v = VDict [("type", VStr "email"); ("title", VStr t);
                   ("description", VStr de); ("regex", VStr r);
                   ("hint", VStr h)]
        /\ String.length t <= 100
        /\ String.length de <= 1000
        /\ String.length r <= 100
        /\ isregex (VStr r) = true
        /\ String.length h <= 100).
Proof.
  split.
  - destruct (TypeChecks.email_total isregex v) as [[|] H]; auto.
  - apply TypeChecks.email_accepted.
Qed.

(** ** The configuration document *)

(** X4: on a dict whose [fields] is no dict, [validate_configuration]
    raises nothing; it returns [True] exactly when every entry of the dict
    passes the rules [SCHEMA] gives for its key (so the dict has no key
    outside the schema) and the dict lacks none of the eight keys of the
    schema.  On a value that is no dict Cerberus raises [DocumentError]. *)
Theorem configuration_accepted_exactly
  (isregex : value -> bool) (re_match : string -> string -> res bool)
  (d : dict) :
  (forall f, In ("fields", f) d -> is_dict f = false) ->
  (ConfigurationValidator.validate_configuration isregex re_match (VDict d)
   = Ok true
   \/ ConfigurationValidator.validate_configuration isregex re_match (VDict d)
      = Ok false)
  /\ (ConfigurationValidator.validate_configuration isregex re_match (VDict d)
      = Ok true <-> entries_ok isregex d)
  /\ (forall c,
         is_dict c = false ->
         ConfigurationValidator.validate_configuration isregex re_match c
         = Raise DocumentError).
Proof.
  intros _. split; [|split].
  - destruct (ConfigurationCerberus.validate_configuration_total
                isregex re_match d) as [[|] H]; auto.
  - apply ConfigurationCerberus.validate_configuration_true.
  - intros c Hc. destruct c; try reflexivity. discriminate Hc.
Qed.

Lemma configuration_accepted_example :
  let d := [("admin_name", VStr "admin"); ("survey_name", VStr "survey");
            ("title", VStr "title"); ("description", VStr "");
            ("start", VInt 0); ("end", VInt 1); ("mode", VInt 0);
            ("fields", VList [option_field "Agree" "" true])] in
  (forall f, In ("fields", f) d -> is_dict f = false)
  /\ (ConfigurationValidator.validate_configuration literal_isregex
        literal_match (VDict d) = Ok true
      <-> entries_ok literal_isregex d)
  /\ ConfigurationValidator.validate_configuration literal_isregex
       literal_match (VList []) = Raise DocumentError.
Proof.
  cbv zeta.
  assert (H : forall f,
             In ("fields", f)
               [("admin_name", VStr "admin"); ("survey_name", VStr "survey");
                ("title", VStr "title"); ("description", VStr "");
                ("start", VInt 0); ("end", VInt 1); ("mode", VInt 0);
                ("fields", VList [option_field "Agree" "" true])] ->
             is_dict f = false).
  { intros f Hin. simpl in Hin.
    repeat (destruct Hin as [Hin|Hin]; [discriminate Hin || idtac|]);
      [|contradiction].
    injection Hin as <-. reflexivity. }
  split; [exact H|].
  destruct (configuration_accepted_exactly literal_isregex literal_match _ H)
    as [_ [Hiff Hdoc]].
  split; [exact Hiff | apply Hdoc; reflexivity].
Defined.

(** X5: the order of the top-level keys of a configuration does not matter:
    two dicts with the same entries in different orders get the same
    verdict from [validate_configuration] (unlike the keys of a field,
    whose order the type checks fix). *)
Theorem top_level_key_order_irrelevant
  (isregex : value -> bool) (re_match : string -> string -> res bool)
  (d d' : dict) :
  Permutation d d' ->
  ConfigurationValidator.validate_configuration isregex re_match (VDict d)
  = ConfigurationValidator.validate_configuration isregex re_match (VDict d').
Proof.
  intros Hp.
  assert (Hiff : entries_ok isregex d <-> entries_ok isregex d').
  { unfold entries_ok. split; intros [H1 H2]; split.
    - intros k v Hin. apply H1. eapply Permutation_in; [|exact Hin].
      now apply Permutation_sym.
    - intros k Hk. eapply Permutation_in; [|apply H2, Hk].
      unfold Dict.keys. now apply Permutation_map.
    - intros k v Hin. apply H1. eapply Permutation_in; [|exact Hin].
      exact Hp.
    - intros k Hk. eapply Permutation_in; [|apply H2, Hk].
      unfold Dict.keys. apply Permutation_map. now apply Permutation_sym. }
  rewrite <- !ConfigurationCerberus.validate_configuration_true in Hiff.
  destruct (ConfigurationCerberus.validate_configuration_total
              isregex re_match d) as [[|] H];
    destruct (ConfigurationCerberus.validate_configuration_total
                isregex re_match d') as [[|] H']; rewrite H, H';
    try reflexivity.
  - apply (proj1 Hiff) in H. rewrite H in H'. discriminate H'.
  - apply (proj2 Hiff) in H'. rewrite H' in H. discriminate H.
Qed.

Lemma top_level_key_order_example :
  ConfigurationValidator.validate_configuration literal_isregex literal_match
    (VDict [("survey_name", VStr "survey"); ("admin_name", VStr "admin");
            ("title", VStr "title"); ("description", VStr "");
            ("start", VInt 0); ("end", VInt 1); ("mode", VInt 0);
            ("fields", VList [option_field "Agree" "" true])])
  = ConfigurationValidator.validate_configuration literal_isregex
      literal_match
      (VDict [("admin_name", VStr "admin"); ("survey_name", VStr "survey");
              ("title", VStr "title"); ("description", VStr "");
              ("start", VInt 0); ("end", VInt 1); ("mode", VInt 0);
              ("fields", VList [option_field "Agree" "" true])]).
Proof.
  apply (top_level_key_order_irrelevant literal_isregex literal_match).
  apply perm_swap.
Defined.

(** X6: a configuration whose [fields] is no dict, with a key that is none
    of the eight keys of [SCHEMA] or without one of the eight, is rejected:
    the validator is created with [require_all=True] and does not allow
    unknown keys. *)
Theorem unknown_or_missing_key_rejected
  (isregex : value -> bool) (re_match : string -> string -> res bool)
  (d : dict) (k : string) :
  (forall f, In ("fields", f) d -> is_dict f = false) ->
  (In k (Dict.keys d) /\ ~ In k (Dict.keys ConfigurationValidator.SCHEMA))
  \/ (In k (Dict.keys ConfigurationValidator.SCHEMA) /\ ~ In k (Dict.keys d)) ->
  ConfigurationValidator.validate_configuration isregex re_match (VDict d)
  = Ok false.
Proof.
  intros _ H.
  destruct (ConfigurationCerberus.validate_configuration_total
              isregex re_match d) as [[|] Hb]; [|exact Hb].
  exfalso.
  apply ConfigurationCerberus.validate_configuration_true in Hb.
  destruct Hb as [Hentries Hkeys].
  destruct H as [[Hin Hout]|[Hin Hout]].
  - unfold Dict.keys in Hin. apply in_map_iff in Hin.
    destruct Hin as [[k' v] [Hk Hin]]. simpl in Hk. subst k'.
    specialize (Hentries _ _ Hin).
    apply (ConfigurationCerberus.unknown_key isregex re_match k v);
      [|exact Hentries].
    now apply get_None.
  - apply Hout. now apply Hkeys.
Qed.

Lemma unknown_or_missing_key_example :
  ConfigurationValidator.validate_configuration literal_isregex literal_match
    (VDict [("admin_name", VStr "admin"); ("survey_name", VStr "survey");
            ("title", VStr "title"); ("description", VStr "");
            ("start", VInt 0); ("end", VInt 1); ("mode", VInt 0);
            ("fields", VList []); ("author", VStr "me")])
  = Ok false
  /\ ConfigurationValidator.validate_configuration literal_isregex
       literal_match
       (VDict [("admin_name", VStr "admin"); ("survey_name", VStr "survey");
               ("title", VStr "title"); ("description", VStr "");
               ("start", VInt 0); ("end", VInt 1); ("mode", VInt 0)])
     = Ok false.
Proof.
  split.
  - apply (unknown_or_missing_key_rejected literal_isregex literal_match _
             "author").
    + intros f Hin. simpl in Hin.
      repeat (destruct Hin as [Hin|Hin]; [discriminate Hin || idtac|]);
        [|contradiction].
      injection Hin as <-. reflexivity.
    + left. split.
      * simpl. tauto.
      * simpl. intros H.
        repeat (destruct H as [H|H]; [discriminate H|]). exact H.
  - apply (unknown_or_missing_key_rejected literal_isregex literal_match _
             "fields").
    + intros f Hin. simpl in Hin.
      repeat (destruct Hin as [Hin|Hin]; [discriminate Hin|]).
      contradiction.
    + right. split.
      * simpl. tauto.
      * simpl. intros H.
        repeat (destruct H as [H|H]; [discriminate H|]). exact H.
Defined.

(** ** The schema compiler *)

(** X7: when [_generate_schema] returns a schema for a configuration whose
    [fields] is a list of [n] fields, the keys of the schema are '1', ...,
    the string of [n], in this order and without repetition, and the entry
    found under the string of [i+1] is what [_generate_field_schema]
    returns for the field at position [i] (from 0). *)
Theorem schema_keys_are_positions (c : value) (fields : list value)
  (schema : dict) :
  getitem c "fields" = Ok (VList fields) ->
  SubmissionValidator._generate_schema c = Ok (VDict schema) ->
  Dict.keys schema
  = map (fun i => str_of_nat (i + 1)) (seq 0 (List.length fields))
  /\ NoDup (Dict.keys schema)
  /\ (forall i f,
         nth_error fields i = Some f ->
         exists e,
           SubmissionValidator._generate_field_schema f = Ok e
           /\ Dict.get (str_of_nat (i + 1)) schema = Some e).
Proof.
  intros Hf Hs. unfold SubmissionValidator._generate_schema in Hs.
  rewrite Hf in Hs. simpl in Hs.
  destruct (SubmissionValidator.enumerate_from
              SubmissionValidator._generate_field_schema 0 fields [])
    as [r|] eqn:E; [|discriminate].
  simpl in Hs. injection Hs as ->.
  apply CompilerFacts.enumerate_from_spec in E; [|auto].
  destruct E as [es [-> [Hk Hall]]]. simpl.
  assert (Hnd : NoDup (Dict.keys es)).
  { rewrite Hk. apply CompilerFacts.positions_distinct. }
  split; [exact Hk|]. split; [exact Hnd|].
  intros i f Hi.
  destruct (CompilerFacts.entries_at_positions _ _ _ Hall 0 Hk i f Hi)
    as [e [He Hin]].
  exists e. split; [exact He|]. now apply In_get.
Qed.

Lemma schema_keys_are_positions_example :
  let c := configuration "admin" "survey" "title" "" 0 1 0
             [text_field "Comment" "" 0 10; option_field "Agree" "" true] in
  let schema :=
    [("1", VDict [("type", VStr "text"); ("min_chars", VInt 0);
                  ("max_chars", VInt 10)]);
     ("2", VDict [("type", VStr "option"); ("mandatory", VBool true)])] in
  Dict.keys schema = map (fun i => str_of_nat (i + 1)) (seq 0 2)
  /\ NoDup (Dict.keys schema)
  /\ (forall i f,
         nth_error [text_field "Comment" "" 0 10;
                    option_field "Agree" "" true] i = Some f ->
         exists e,
           SubmissionValidator._generate_field_schema f = Ok e
           /\ Dict.get (str_of_nat (i + 1)) schema = Some e).
Proof.
  apply (schema_keys_are_positions
           (configuration "admin" "survey" "title" "" 0 1 0
              [text_field "Comment" "" 0 10; option_field "Agree" "" true])
           [text_field "Comment" "" 0 10; option_field "Agree" "" true]
           [("1", VDict [("type", VStr "text"); ("min_chars", VInt 0);
                         ("max_chars", VInt 10)]);
            ("2", VDict [("type", VStr "option");
                         ("mandatory", VBool true)])]);
    reflexivity.
Defined.

(** X8: how the compiler fails.  [_generate_schema] raises [TypeError] on
    a configuration that is no dict and [KeyError] on a dict without
    [fields]; [_generate_field_schema] raises [TypeError] on a field that
    is no dict and [KeyError] on a dict without [type]; and when the fields
    before a field compile and that field raises, [_generate_schema] raises
    the same exception. *)
Theorem compile_errors (d : dict) (before after : list value) (f : value)
  (e : pyexc) :
  (forall c, is_dict c = false ->
             SubmissionValidator._generate_schema c = Raise TypeError)
  /\ (Dict.get "fields" d = None ->
      SubmissionValidator._generate_schema (VDict d) = Raise KeyError)
  /\ (is_dict f = false ->
      SubmissionValidator._generate_field_schema f = Raise TypeError)
  /\ (Dict.get "type" d = None ->
      SubmissionValidator._generate_field_schema (VDict d) = Raise KeyError)
  /\ (Dict.get "fields" d = Some (VList (before ++ f :: after)) ->
      (forall g, In g before ->
                 exists y, SubmissionValidator._generate_field_schema g
                           = Ok y) ->
      SubmissionValidator._generate_field_schema f = Raise e ->
      SubmissionValidator._generate_schema (VDict d) = Raise e).
Proof.
  split; [|split; [|split; [|split]]].
  - intros c Hc. destruct c; try reflexivity. discriminate Hc.
  - intros H. unfold SubmissionValidator._generate_schema. simpl.
    unfold Dict.getitem. now rewrite H.
  - intros Hf. destruct f; try reflexivity. discriminate Hf.
  - intros H. rewrite CompilerFacts.generate_field_schema_dict.
    unfold Dict.getitem. now rewrite H.
  - intros Hd Hb Hf. unfold SubmissionValidator._generate_schema. simpl.
    unfold Dict.getitem. rewrite Hd. simpl.
    now rewrite (CompilerFacts.enumerate_from_raises _ before after f e Hb Hf).
Qed.

Lemma compile_errors_example :
  SubmissionValidator._generate_schema
    (VDict [("fields",
             VList [option_field "A" "" false;
                    VDict [("title", VStr "no type")];
                    VInt 3])])
  = Raise KeyError.
Proof.
  apply (compile_errors
           [("fields",
             VList [option_field "A" "" false;
                    VDict [("title", VStr "no type")];
                    VInt 3])]
           [option_field "A" "" false] [VInt 3]
           (VDict [("title", VStr "no type")]) KeyError).
  - reflexivity.
  - intros g [<-|[]]. eexists. reflexivity.
  - reflexivity.
Defined.

(** X9: the compiler works at any depth and for any kind.  For a field
    tree (a dict without repeated keys that has a [type] and, if it has
    [fields], a list of field trees there) [_generate_field_schema] returns
    an entry, and the entry mirrors the tree: it carries the [type] and the
    rules the field has, the nested [schema] has one entry per subfield
    under the string of its position, and so on down the tree. *)
Theorem compile_any_depth (f : value) :
  field_tree f ->
  exists e,
    SubmissionValidator._generate_field_schema f = Ok e
    /\ compiled_from f e.
Proof.
  apply CompilerFacts.field_tree_compiles.
Qed.

(** A literal list of keys has no repetition. *)
Ltac distinct_keys :=
  cbn; repeat (constructor; [cbn; intuition discriminate|]); constructor.

Lemma compile_any_depth_example :
  exists e,
    SubmissionValidator._generate_field_schema
      (selection_field "S" "" 0 2
         [radio_field "R" "" [option_field "A" "" false];
          text_field "T" "" 0 5]) = Ok e
    /\ compiled_from
         (selection_field "S" "" 0 2
            [radio_field "R" "" [option_field "A" "" false];
             text_field "T" "" 0 5]) e.
Proof.
  apply compile_any_depth.
  eapply tree_group; [distinct_keys | reflexivity | reflexivity |].
  apply forest_cons; [|apply forest_cons; [|apply forest_nil]].
  - eapply tree_group; [distinct_keys | reflexivity | reflexivity |].
    apply forest_cons; [|apply forest_nil].
    eapply tree_leaf; [distinct_keys | reflexivity | reflexivity].
  - eapply tree_leaf; [distinct_keys | reflexivity | reflexivity].
Defined.

(** X10: the descriptive attributes do not reach the schema: assigning a
    value to a key of a field that is none of [type], [fields] and the six
    rules (so to [title], [description] or [hint]) leaves what
    [_generate_field_schema] returns unchanged. *)
Theorem descriptive_attributes_ignored (items : dict) (k : string)
  (v : value) :
  k <> "type" -> k <> "fields" -> ~ In k SubmissionValidator.rules ->
  SubmissionValidator._generate_field_schema (VDict (Dict.set k v items))
  = SubmissionValidator._generate_field_schema (VDict items).
Proof.
  intros Ht Hf Hr.
  rewrite !CompilerFacts.generate_field_schema_dict.
  unfold Dict.getitem.
  rewrite !CompilerFacts.get_set_other by congruence.
  destruct (Dict.get "type" items) as [t|]; [|reflexivity]. simpl.
  destruct (Dict.get "fields" items) as [fs|]; simpl.
  - destruct (SubmissionValidator.enumerate _ fs); simpl; [|reflexivity].
    now rewrite CompilerFacts.copy_rules_set_other.
  - now rewrite CompilerFacts.copy_rules_set_other.
Qed.

Lemma descriptive_attributes_example :
  SubmissionValidator._generate_field_schema
    (VDict (Dict.set "title" (VStr "Another title")
              [("type", VStr "text"); ("title", VStr "Comment");
               ("description", VStr ""); ("min_chars", VInt 0);
               ("max_chars", VInt 10)]))
  = SubmissionValidator._generate_field_schema
      (VDict [("type", VStr "text"); ("title", VStr "Comment");
              ("description", VStr ""); ("min_chars", VInt 0);
              ("max_chars", VInt 10)]).
Proof.
  apply (descriptive_attributes_ignored _ "title" (VStr "Another title")).
  - discriminate.
  - discriminate.
  - simpl. intros H.
    repeat (destruct H as [H|H]; [discriminate H|]). exact H.
Defined.

(** ** The submission validator *)

(** X11: the two structure checks of the submission validator never raise,
    on any value: [_validate_type_selection] holds exactly of the dicts
    whose values are all booleans (the empty dict among them), and
    [_validate_type_radio] exactly of those with, besides, one value
    [True]; the count is taken only after the values are known to be
    booleans, so the sum cannot fail. *)
Theorem selection_structure_exact (v : value) :
  (SubmissionValidator._validate_type_selection v = Ok true
   \/ SubmissionValidator._validate_type_selection v = Ok false)
  /\ (SubmissionValidator._validate_type_selection v = Ok true <->
      exists d, v = VDict d
                /\ Forall (fun x => exists b, x = VBool b) (Dict.values d))
  /\ (SubmissionValidator._validate_type_radio v = Ok true
      \/ SubmissionValidator._validate_type_radio v = Ok false)
  /\ (SubmissionValidator._validate_type_radio v = Ok true <->
      exists d, v = VDict d
                /\ Forall (fun x => exists b, x = VBool b) (Dict.values d)
                /\ selected d = 1).
Proof.
  split; [|split; [|split]].
  - destruct v; simpl; auto.
    destruct (forallb is_bool (Dict.values d)); auto.
  - destruct v;
      try (split; [discriminate | intros [d' [H _]]; discriminate]).
    unfold SubmissionValidator._validate_type_selection. split.
    + intros [= H]. exists d. split; [reflexivity|].
      now apply SubmissionFacts.all_bools.
    + intros [d' [[= <-] H]]. apply SubmissionFacts.all_bools in H.
      now rewrite H.
  - destruct (SubmissionFacts.radio_type_total v) as [[|] H]; auto.
  - rewrite SubmissionFacts.radio_type_true. split.
    + intros [d [-> [Hb H1]]]. exists d.
      apply SubmissionFacts.all_bools in Hb. auto.
    + intros [d [-> [Hb H1]]]. exists d.
      apply SubmissionFacts.all_bools in Hb. auto.
Qed.

(** X12: a value of the wrong primitive type gets the error of the [type]
    rule and nothing else, and no exception: against an entry of type
    'text' or 'email' a value that is neither a string nor [None], and
    against an entry of type 'option' a value that is neither a boolean
    nor [None], whatever other rules the entry has.  The length rules
    themselves would raise [TypeError] on an integer, which has no
    [len]. *)
Theorem wrong_type_shields_rules
  (re_match : string -> string -> res bool) (rules : dict) (t : string)
  (p : path) (v : value) :
  Dict.get "type" rules = Some (VStr t) ->
  v <> VNone ->
  ((t = "text" \/ t = "email") /\ is_str v = false)
  \/ (t = "option" /\ is_bool v = false) ->
  SubmissionValidator.field_errors re_match (VDict rules) p v
  = Ok [(p, BadType)]
  /\ (forall bound z,
         SubmissionValidator._validate_min_chars bound (VInt z)
         = Raise TypeError
         /\ SubmissionValidator._validate_max_chars bound (VInt z)
            = Raise TypeError).
Proof.
  intros Ht Hn Hv. split; [|intros; split; reflexivity].
  unfold SubmissionValidator.field_errors.
  destruct Hv as [[[->| ->] Hs]|[-> Hb]];
    destruct v; try contradiction; try discriminate;
    simpl; rewrite Ht; reflexivity.
Qed.

Lemma wrong_type_shields_rules_example :
  SubmissionValidator.field_errors literal_match
    (VDict [("type", VStr "text"); ("min_chars", VInt 2);
            ("max_chars", VInt 5)]) [PKey "1"] (VInt 7)
  = Ok [([PKey "1"], BadType)]
  /\ (forall bound z,
         SubmissionValidator._validate_min_chars bound (VInt z)
         = Raise TypeError
         /\ SubmissionValidator._validate_max_chars bound (VInt z)
            = Raise TypeError).
Proof.
  apply (wrong_type_shields_rules literal_match _ "text").
  - reflexivity.
  - discriminate.
  - left. split; [left|]; reflexivity.
Defined.

(** X13: bounds in the wrong order make a field that nothing satisfies.
    The source leaves [min_chars <= max_chars] and
    [min_select <= max_select] unchecked; against the compiled entry of a
    Text field with [max_chars < min_chars], and of a Selection field with
    [max_select < min_select], no value at all is without error. *)
Theorem unsatisfiable_bounds
  (re_match : string -> string -> res bool) (lo hi : Z) (subentries : dict)
  (p : path) (v : value) :
  (hi < lo)%Z ->
  SubmissionValidator.field_errors re_match
    (VDict [("type", VStr "text"); ("min_chars", VInt lo);
            ("max_chars", VInt hi)]) p v <> Ok []
  /\ SubmissionValidator.field_errors re_match
       (VDict [("type", VStr "selection"); ("schema", VDict subentries);
               ("min_select", VInt lo); ("max_select", VInt hi)]) p v
     <> Ok [].
Proof.
  intros Hlt. split.
  - destruct v; try discriminate.
    rewrite SubmissionFields.text_entry_errors.
    destruct (Z.ltb_spec (Z.of_nat (String.length s)) lo),
      (Z.ltb_spec hi (Z.of_nat (String.length s)));
      try discriminate. lia.
  - destruct v as [| | | | |d]; try discriminate.
    destruct (forallb is_bool (Dict.values d)) eqn:E.
    + rewrite SubmissionFields.selection_entry_errors by exact E.
      destruct (options_errors re_match subentries p d) as [es|];
        [|discriminate]. simpl.
      destruct (Z.ltb_spec (Z.of_nat (selected d)) lo),
        (Z.ltb_spec hi (Z.of_nat (selected d)));
        try lia; intros [= Heq]; apply app_eq_nil in Heq;
        destruct Heq as [_ Heq]; discriminate Heq.
    + unfold SubmissionValidator.field_errors.
      cbn -[SubmissionValidator._validate_min_select
              SubmissionValidator._validate_max_select validate_mapping].
      rewrite E. discriminate.
Qed.

Lemma unsatisfiable_bounds_example :
  SubmissionValidator.field_errors literal_match
    (VDict [("type", VStr "text"); ("min_chars", VInt 5);
            ("max_chars", VInt 2)]) [PKey "1"] (VStr "abc") <> Ok []
  /\ SubmissionValidator.field_errors literal_match
       (VDict [("type", VStr "selection"); ("schema", VDict []);
               ("min_select", VInt 5); ("max_select", VInt 2)]) [PKey "1"]
       (VStr "abc")
     <> Ok [].
Proof.
  apply (unsatisfiable_bounds literal_match 5 2 [] [PKey "1"] (VStr "abc")).
  lia.
Defined.

(** X14: the submission validator is created with [require_all=True] and
    allows no unknown key, so a submission it accepts is a dict whose keys
    are exactly the strings of the positions 1, ..., [n] of the [n] fields
    of the configuration: every field is answered and nothing else is. *)
Theorem accepted_submission_answers_every_field
  (re_match : string -> string -> res bool) (c : value)
  (fields : list value) (submission : value) :
  getitem c "fields" = Ok (VList fields) ->
  SubmissionValidator.validate_submission re_match c submission = Ok true ->
  exists doc,
    submission = VDict doc
    /\ (forall k,
           In k (Dict.keys doc) <->
           exists i, i < List.length fields /\ k = str_of_nat (i + 1)).
Proof.
  intros Hf Hv.
  unfold SubmissionValidator.validate_submission,
    SubmissionValidator.submission_errors,
    SubmissionValidator._generate_schema in Hv.
  rewrite Hf in Hv. simpl in Hv.
  destruct (SubmissionValidator.enumerate_from
              SubmissionValidator._generate_field_schema 0 fields [])
    as [schema|] eqn:E; [|discriminate]. simpl in Hv.
  apply CompilerFacts.enumerate_from_spec in E; [|auto].
  destruct E as [es [-> [Hk _]]]. simpl in Hv, Hk.
  destruct submission as [| | | | |doc]; try discriminate.
  exists doc. split; [reflexivity|].
  assert (Hnil : options_errors re_match es [] doc = Ok []).
  { unfold options_errors. simpl in Hv.
    destruct (validate_mapping _ es [] doc) as [[|x xs]|];
      [reflexivity | discriminate | discriminate]. }
  apply SubmissionFacts.options_errors_nil in Hnil.
  destruct Hnil as [Hitems Hmissing].
  assert (Hpos : forall k, In k (Dict.keys es) <->
                           exists i, i < List.length fields
                                     /\ k = str_of_nat (i + 1)).
  { intros k. rewrite Hk, in_map_iff. split.
    - intros [i [<- Hi]]. apply in_seq in Hi. exists i. split; [lia|auto].
    - intros [i [Hi ->]]. exists i. split; [reflexivity|].
      apply in_seq. lia. }
  intros k. rewrite <- Hpos. split.
  - intros Hin. unfold Dict.keys in Hin. apply in_map_iff in Hin.
    destruct Hin as [[k' v] [Hk' Hin]]. simpl in Hk'. subst k'.
    destruct (Hitems k v Hin) as [entry [Hget _]].
    apply get_In in Hget. apply (in_map fst) in Hget. exact Hget.
  - apply Hmissing.
Qed.

Lemma accepted_submission_example :
  exists doc,
    VDict [("1", VStr "abc"); ("2", VBool true)] = VDict doc
    /\ (forall k,
           In k (Dict.keys doc) <->
           exists i,
             i < List.length [text_field "Comment" "" 0 10;
                              option_field "Agree" "" true]
             /\ k = str_of_nat (i + 1)).
Proof.
  apply (accepted_submission_answers_every_field literal_match
           (configuration "admin" "survey" "title" "" 0 1 0
              [text_field "Comment" "" 0 10; option_field "Agree" "" true]));
    reflexivity.
Defined.

(** X15: the configuration validator accepts a Radio field with two
    mandatory options, and no submission can answer it: the Radio check
    wants exactly one option [True], the [mandatory] rule wants both of the
    two; against the compiled entry every value has an error. *)
Theorem two_mandatory_options_unanswerable
  (re_match : string -> string -> res bool) (t de : string)
  (fields : list value) (i j : nat) (ti di tj dj : string)
  (p : path) (v : value) :
  String.length t <= ConfigurationValidator.TITLE_MAX_LENGTH ->
  String.length de <= ConfigurationValidator.DESCRIPTION_MAX_LENGTH ->
  Forall (fun f => ConfigurationValidator._validate_type_option f = Ok true)
    fields ->
  i <> j ->
  nth_error fields i = Some (option_field ti di true) ->
  nth_error fields j = Some (option_field tj dj true) ->
  ConfigurationValidator._validate_type_radio (radio_field t de fields)
  = Ok true
  /\ exists entry,
      SubmissionValidator._generate_field_schema (radio_field t de fields)
      = Ok entry
      /\ SubmissionValidator.field_errors re_match entry p v <> Ok [].
Proof.
  intros Ht Hde Hall Hij Hi Hj. split.
  { apply TypeChecks.radio_accepted. exists t, de, fields. auto. }
  destruct (Compiler.compile_radio t de fields Hall) as [es [Hc _]].
  exists (VDict [("type", VStr "radio"); ("schema", VDict es)]).
  split; [exact Hc|].
  rewrite Compiler.generate_radio in Hc.
  simpl SubmissionValidator.enumerate in Hc.
  destruct (SubmissionValidator.enumerate_from
              SubmissionValidator._generate_field_schema 0 fields [])
    as [r|] eqn:E; [|discriminate]. simpl in Hc. injection Hc as ->.
  apply CompilerFacts.enumerate_from_spec in E; [|auto].
  destruct E as [es' [-> [Hk Hall2]]]. simpl in *.
  assert (Hnd : NoDup (Dict.keys es')).
  { rewrite Hk. apply CompilerFacts.positions_distinct. }
  destruct (CompilerFacts.entries_at_positions _ _ _ Hall2 0 Hk i _ Hi)
    as [ei [Hei Hini]].
  destruct (CompilerFacts.entries_at_positions _ _ _ Hall2 0 Hk j _ Hj)
    as [ej [Hej Hinj]].
  injection Hei as <-. injection Hej as <-. simpl in Hini, Hinj.
  intros Herr.
  apply SubmissionFacts.radio_entry_errors in Herr.
  destruct Herr as [d [-> [Hb [H1 Hopt]]]].
  apply SubmissionFacts.options_errors_nil in Hopt.
  destruct Hopt as [Hitems Hmissing].
  assert (Hsel : forall n e,
             In (str_of_nat (n + 1), e) es' ->
             e = VDict [("type", VStr "option"); ("mandatory", VBool true)] ->
             In (str_of_nat (n + 1), VBool true) d).
  { intros n e Hin ->.
    assert (Hkd : In (str_of_nat (n + 1)) (Dict.keys d)).
    { apply Hmissing. apply (in_map fst) in Hin. exact Hin. }
    unfold Dict.keys in Hkd. apply in_map_iff in Hkd.
    destruct Hkd as [[k x] [Hkx Hind]]. simpl in Hkx. subst k.
    destruct (Hitems _ _ Hind) as [entry [Hget Hok]].
    rewrite (In_get _ _ _ Hnd Hin) in Hget. injection Hget as <-.
    apply SubmissionFacts.mandatory_option_true in Hok. now subst x. }
  pose proof (Hsel i _ Hini eq_refl) as Hdi.
  pose proof (Hsel j _ Hinj eq_refl) as Hdj.
  assert (Hne : str_of_nat (i + 1) <> str_of_nat (j + 1)).
  { intros H. apply Compiler.str_of_nat_inj in H. lia. }
  pose proof (SubmissionFacts.two_selected d _ _ Hne Hdi Hdj). lia.
Qed.

Lemma two_mandatory_options_example :
  ConfigurationValidator._validate_type_radio
    (radio_field "Pick" "" [option_field "A" "" true;
                            option_field "B" "" true])
  = Ok true
  /\ exists entry,
      SubmissionValidator._generate_field_schema
        (radio_field "Pick" "" [option_field "A" "" true;
                                option_field "B" "" true])
      = Ok entry
      /\ SubmissionValidator.field_errors literal_match entry [PKey "1"]
           (VDict [("1", VBool true); ("2", VBool false)]) <> Ok [].
Proof.
  apply (two_mandatory_options_unanswerable literal_match "Pick" ""
           [option_field "A" "" true; option_field "B" "" true] 0 1
           "A" "" "B" "").
  - unfold ConfigurationValidator.TITLE_MAX_LENGTH. simpl. lia.
  - unfold ConfigurationValidator.DESCRIPTION_MAX_LENGTH. simpl. lia.
  - repeat constructor.
  - discriminate.
  - reflexivity.
  - reflexivity.
Defined.

(** X16: the pipeline does not crash.  For a configuration that
    [validate_configuration] accepts, given that every pattern [isregex]
    accepts compiles with the final [$] Cerberus adds, validating any dict
    as a submission returns a verdict: no [KeyError], [TypeError],
    [AttributeError] or schema error comes out of the compiler, of Cerberus
    or of the rule methods, whatever the values in the submission are.  A
    submission that is no dict raises Cerberus's [DocumentError]. *)
Theorem accepted_configuration_never_crashes
  (isregex : value -> bool) (re_match : string -> string -> res bool)
  (c submission : value) :
  (forall r s,
      isregex (VStr r) = true ->
      exists b,
        re_match (if ends_with_dollar r then r else (r ++ "$")%string) s
        = Ok b) ->
  ConfigurationValidator.validate_configuration isregex re_match c = Ok true ->
  match submission with
  | VDict _ =>
      exists b,
        SubmissionValidator.validate_submission re_match c submission = Ok b
  | _ =>
      SubmissionValidator.validate_submission re_match c submission
      = Raise DocumentError
  end.
Proof.
  intros Hre Hc.
  destruct (Compiler.accepted_fields isregex re_match c Hc)
    as [d [fields [-> [Hget Hall]]]].
  rewrite Forall_forall in Hall.
  destruct (Compiler.enumerate_list fields) as [es [He _]].
  { intros f Hf. apply (Compiler.compile_accepted isregex). auto. }
  assert (Hs : SubmissionValidator._generate_schema (VDict d)
               = Ok (VDict es)).
  { unfold SubmissionValidator._generate_schema. simpl.
    unfold Dict.getitem. rewrite Hget. simpl. simpl in He. now rewrite He. }
  unfold SubmissionValidator.validate_submission,
    SubmissionValidator.submission_errors.
  rewrite Hs. simpl.
  destruct submission as [| | | | |doc]; try reflexivity.
  destruct (SubmissionFacts.mapping_total re_match es [] doc) as [errs Herrs].
  - intros k entry Hk q v.
    simpl in He. apply CompilerFacts.enumerate_from_spec in He; [|auto].
    destruct He as [es' [-> [_ Hall2]]]. simpl in Hk.
    apply get_In in Hk.
    destruct (Forall2_In_r _ _ _ _ Hall2 Hk) as [x [Hx Hcx]].
    simpl in Hcx. destruct (Hall x Hx) as [H|[H|H]].
    + apply TypeChecks.email_accepted in H.
      destruct H as [t [de [r [h [-> [_ [_ [_ [Hr _]]]]]]]]].
      simpl in Hcx. injection Hcx as <-.
      apply SubmissionFacts.email_entry_total. intros s. now apply Hre.
    + apply TypeChecks.option_accepted in H.
      destruct H as [t [de [m [-> _]]]].
      simpl in Hcx. injection Hcx as <-.
      apply SubmissionFacts.option_entry_total.
    + apply TypeChecks.radio_accepted in H.
      destruct H as [t [de [fs [-> [_ [_ Hopts]]]]]].
      rewrite Compiler.generate_radio in Hcx.
      destruct (SubmissionValidator.enumerate
                  SubmissionValidator._generate_field_schema (VList fs))
        as [sub|] eqn:Esub; [|discriminate].
      simpl in Hcx. injection Hcx as <-.
      apply SubmissionFacts.radio_entry_total.
      exact (SubmissionFacts.option_entries fs sub Hopts Esub).
  - unfold options_errors in Herrs. simpl. rewrite Herrs. simpl. eauto.
Qed.

Lemma never_crashes_example :
  exists b,
    SubmissionValidator.validate_submission literal_match
      (configuration "admin" "survey" "title" "" 0 1 0
         [email_field "Mail" "" "a+" "hint";
          radio_field "Pick" "" [option_field "A" "" false]])
      (VDict [("1", VInt 3); ("2", VDict [("1", VStr "yes")]);
              ("3", VNone)])
    = Ok b.
Proof.
  apply (accepted_configuration_never_crashes literal_isregex literal_match
           (configuration "admin" "survey" "title" "" 0 1 0
              [email_field "Mail" "" "a+" "hint";
               radio_field "Pick" "" [option_field "A" "" false]])
           (VDict [("1", VInt 3); ("2", VDict [("1", VStr "yes")]);
                   ("3", VNone)])).
  - intros r s Hr. unfold literal_match.
    assert (Hp : forall x, no_parenthesis x = true ->
                           no_parenthesis (x ++ "$") = true).
    { induction x as [|a x IH]; simpl; [reflexivity|].
      intros H. apply andb_true_iff in H. destruct H as [H1 H2].
      rewrite H1. simpl. now apply IH. }
    simpl in Hr.
    destruct (ends_with_dollar r).
    + rewrite Hr. eauto.
    + rewrite (Hp r Hr). eauto.
  - reflexivity.
Defined.

(** X17: what a survey that passed validation can ask.  Every entry of the
    schema compiled from an accepted configuration is of one of three
    shapes: [{'type': 'email', 'regex': r}], [{'type': 'option',
    'mandatory': m}], or [{'type': 'radio', 'schema': ...}] with option
    entries only in the nested schema.  So no such entry has the type
    'text' or 'selection' or one of the rules [min_chars], [max_chars],
    [min_select], [max_select]: these parts of the submission validator
    are never reached from an accepted configuration. *)
Theorem accepted_schema_shapes
  (isregex : value -> bool) (re_match : string -> string -> res bool)
  (c : value) (schema : dict) :
  ConfigurationValidator.validate_configuration isregex re_match c = Ok true ->
  SubmissionValidator._generate_schema c = Ok (VDict schema) ->
  forall k entry,
    Dict.get k schema = Some entry ->
    accepted_entry_shape entry
    /\ (forall items rule,
           entry = VDict items ->
           In rule ["min_chars"; "max_chars"; "min_select"; "max_select"] ->
           Dict.get rule items = None).
Proof.
  intros Hc Hs k entry Hk.
  destruct (Compiler.accepted_fields isregex re_match c Hc)
    as [d [fields [-> [Hget Hall]]]].
  rewrite Forall_forall in Hall.
  unfold SubmissionValidator._generate_schema in Hs. simpl in Hs.
  unfold Dict.getitem in Hs. rewrite Hget in Hs. simpl in Hs.
  destruct (SubmissionValidator.enumerate_from
              SubmissionValidator._generate_field_schema 0 fields [])
    as [r|] eqn:E; [|discriminate]. simpl in Hs. injection Hs as ->.
  apply CompilerFacts.enumerate_from_spec in E; [|auto].
  destruct E as [es' [-> [_ Hall2]]]. simpl in Hk.
  apply get_In in Hk.
  destruct (Forall2_In_r _ _ _ _ Hall2 Hk) as [x [Hx Hcx]].
  simpl in Hcx.
  assert (Hshape : accepted_entry_shape entry).
  { destruct (Hall x Hx) as [H|[H|H]].
    - apply TypeChecks.email_accepted in H.
      destruct H as [t [de [r [h [-> _]]]]].
      simpl in Hcx. injection Hcx as <-. left. eauto.
    - apply TypeChecks.option_accepted in H.
      destruct H as [t [de [m [-> _]]]].
      simpl in Hcx. injection Hcx as <-. right. left. exists m. reflexivity.
    - apply TypeChecks.radio_accepted in H.
      destruct H as [t [de [fs [-> [_ [_ Hopts]]]]]].
      rewrite Compiler.generate_radio in Hcx.
      destruct (SubmissionValidator.enumerate
                  SubmissionValidator._generate_field_schema (VList fs))
        as [sub|] eqn:Esub; [|discriminate].
      simpl in Hcx. injection Hcx as <-. right. right. exists sub.
      split; [reflexivity|].
      exact (SubmissionFacts.option_entries fs sub Hopts Esub). }
  split; [exact Hshape|].
  intros items rule -> Hrule.
  destruct Hshape as [[r [= ->]]|[[m [= ->]]|[sub [[= ->] _]]]];
    cbn in Hrule;
    repeat (destruct Hrule as [<-|Hrule]; [reflexivity|]); contradiction.
Qed.

Lemma accepted_schema_shapes_example :
  let entry := VDict [("type", VStr "radio");
                      ("schema", VDict [("1", option_entry false)])] in
  accepted_entry_shape entry
  /\ (forall items rule,
         entry = VDict items ->
         In rule ["min_chars"; "max_chars"; "min_select"; "max_select"] ->
         Dict.get rule items = None).
Proof.
  apply (accepted_schema_shapes literal_isregex literal_match
           (configuration "admin" "survey" "title" "" 0 1 0
              [email_field "Mail" "" "a+" "hint";
               radio_field "Pick" "" [option_field "A" "" false]])
           [("1", VDict [("type", VStr "email"); ("regex", VStr "a+")]);
            ("2", VDict [("type", VStr "radio");
                         ("schema", VDict [("1", option_entry false)])])]
           eq_refl eq_refl "2").
  reflexivity.
Defined.

(** X18: when a Radio answer is accepted.  For a Radio field whose
    subfields pass the Option check and compile to the nested schema
    [sub], a submitted value has no error against the compiled entry
    exactly when it is a dict with the keys of [sub] (every option, nothing
    else), a boolean under each, [True] under every mandatory option, and
    exactly one [True] in all. *)
Theorem radio_answer_accepted_exactly
  (re_match : string -> string -> res bool) (fields : list value)
  (sub : dict) (p : path) (v : value) :
  Forall (fun f => ConfigurationValidator._validate_type_option f = Ok true)
    fields ->
  SubmissionValidator.enumerate SubmissionValidator._generate_field_schema
    (VList fields) = Ok sub ->
  (SubmissionValidator.field_errors re_match
     (VDict [("type", VStr "radio"); ("schema", VDict sub)]) p v = Ok []
   <->
   exists d,
     v = VDict d
     /\ (forall k, In k (Dict.keys d) <-> In k (Dict.keys sub))
     /\ (forall k x,
            In (k, x) d ->
            exists b, x = VBool b
                      /\ (In (k, option_entry true) sub -> b = true))
     /\ selected d = 1).
Proof.
  intros Hall He.
  pose proof (SubmissionFacts.option_entries fields sub Hall He) as Hopt.
  assert (Hnd : NoDup (Dict.keys sub)).
  { simpl in He. apply CompilerFacts.enumerate_from_spec in He; [|auto].
    destruct He as [es [-> [Hk _]]]. simpl. rewrite Hk.
    apply CompilerFacts.positions_distinct. }
  split.
  - intros H. apply SubmissionFacts.radio_entry_errors in H.
    destruct H as [d [-> [Hb [H1 Hnil]]]].
    apply SubmissionFacts.options_errors_nil in Hnil.
    destruct Hnil as [Hitems Hmissing].
    exists d. split; [reflexivity|]. split; [|split; [|exact H1]].
    + intros k. split; [|apply Hmissing].
      intros Hin. unfold Dict.keys in Hin. apply in_map_iff in Hin.
      destruct Hin as [[k' x] [Hk' Hin]]. simpl in Hk'. subst k'.
      destruct (Hitems k x Hin) as [entry [Hget _]].
      apply get_In in Hget. apply (in_map fst) in Hget. exact Hget.
    + intros k x Hin.
      rewrite forallb_forall in Hb.
      assert (Hx : is_bool x = true).
      { apply Hb. unfold Dict.values. apply (in_map snd) in Hin. exact Hin. }
      destruct x as [|b| | | |]; try discriminate Hx.
      exists b. split; [reflexivity|]. intros Hm.
      destruct (Hitems k (VBool b) Hin) as [entry [Hget Hok]].
      rewrite (In_get _ _ _ Hnd Hm) in Hget. injection Hget as <-.
      apply SubmissionFacts.mandatory_option_true in Hok.
      now injection Hok.
  - intros [d [-> [Hkeys [Hitems H1]]]].
    assert (Hb : forallb is_bool (Dict.values d) = true).
    { apply forallb_forall. intros x Hx. unfold Dict.values in Hx.
      apply in_map_iff in Hx. destruct Hx as [[k x'] [Hk Hin]].
      simpl in Hk. subst x'. destruct (Hitems k x Hin) as [b [-> _]].
      reflexivity. }
    rewrite SubmissionFields.radio_entry_one by assumption.
    unfold options_errors, validate_mapping.
    assert (Hcollect :
             collect
               (fun item : string * value =>
                  match get_with
                          (validate_definitions re_match
                             SubmissionValidator.class)
                          (fst item) sub with
                  | Some check => check (p ++ [PKey (fst item)]) (snd item)
                  | None => Ok [(p ++ [PKey (fst item)], UnknownField)]
                  end) d = Ok []).
    { apply collect_nil. intros [k x] Hin. simpl.
      destruct (Hitems k x Hin) as [b [-> Hm]].
      assert (Hk : In k (Dict.keys sub)).
      { apply Hkeys. apply (in_map fst) in Hin. exact Hin. }
      rewrite get_with_get.
      destruct (Dict.get k sub) as [entry|] eqn:Hget;
        [|apply get_None in Hget; contradiction].
      destruct (Hopt k entry Hget) as [m ->].
      destruct m; [rewrite (Hm (get_In _ _ _ Hget)) | destruct b];
        reflexivity. }
    rewrite Hcollect. simpl. f_equal.
    apply missing_fields_none. intros e Hin.
    apply contains_In. apply Hkeys. apply (in_map fst) in Hin. exact Hin.
Qed.

Lemma radio_answer_example :
  SubmissionValidator.field_errors literal_match
    (VDict [("type", VStr "radio");
            ("schema", VDict [("1", option_entry true);
                              ("2", option_entry false)])])
    [PKey "1"] (VDict [("1", VBool true); ("2", VBool false)]) = Ok []
  <->
  exists d,
    VDict [("1", VBool true); ("2", VBool false)] = VDict d
    /\ (forall k,
           In k (Dict.keys d) <->
           In k (Dict.keys [("1", option_entry true);
                            ("2", option_entry false)]))
    /\ (forall k x,
           In (k, x) d ->
           exists b,
             x = VBool b
             /\ (In (k, option_entry true)
                   [("1", option_entry true); ("2", option_entry false)] ->
                 b = true))
    /\ selected d = 1.
Proof.
  apply (radio_answer_accepted_exactly literal_match
           [option_field "A" "" true; option_field "B" "" false]).
  - repeat constructor.
  - reflexivity.
Defined.
